(** * Food-menu backend (Express + Cassandra): connection lifecycle,
    readiness gate, CRUD handlers and the in-memory search filter.

  The development follows the server source: the two process-wide
  flags [isDbConnected] / [dbInitialized], the retrying
  [connectToDatabase], the [checkDbConnection] middleware and the
  route handlers.  The Cassandra driver, the JavaScript number type,
  [parseFloat], [String.prototype.toLowerCase] and [Uuid.fromString]
  are collaborators of the server: the first is modelled by its CQL
  semantics on a finite map, the others are fields of the [Platform]
  class.

  A text is held as the sequence of its UTF-8 bytes.  On well-formed
  texts emptiness, equality and the substring test on bytes agree with
  those on the code units of a JavaScript string. *)

From Stdlib Require Import String Ascii ZArith List Bool Lia.
From stdpp Require Import gmap strings list fin_maps.

Local Open Scope string_scope.

(** ** JavaScript strings and values *)

Module JS.

(** Lower-casing of the letters [A]..[Z], every other byte left as it
    is: what [String.prototype.toLowerCase] does on an ASCII text.  It
    is the lower-casing of the reference platform below. *)
Definition asciiLowerChar (c : ascii) : ascii :=
  let n := N_of_ascii c in
  if ((65 <=? n) && (n <=? 90))%N then ascii_of_N (n + 32) else c.

Fixpoint asciiLowerCase (s : string) : string :=
  match s with
  | EmptyString => EmptyString
  | String c s' => String (asciiLowerChar c) (asciiLowerCase s')
  end.

(** [s.includes(t)]: [t] starts at some position of [s]. *)
Fixpoint includes (s t : string) : bool :=
  String.prefix t s
  || match s with
     | EmptyString => false
     | String _ s' => includes s' t
     end.

(** A string is truthy when it is not empty. *)
Definition nonEmpty (s : string) : bool :=
  match s with
  | EmptyString => false
  | String _ _ => true
  end.

(** The values a parsed JSON body or query string can hold.  Arrays
    and plain objects are [JObject]: the server only ever tests them
    for truthiness or calls a string method on them. *)
Inductive Value (Num : Type) : Type :=
| JUndefined
| JNull
| JBool (b : bool)
| JNum (n : Num)
| JStr (s : string)
| JObject.

Arguments JUndefined {Num}.
Arguments JNull {Num}.
Arguments JBool {Num} b.
Arguments JNum {Num} n.
Arguments JStr {Num} s.
Arguments JObject {Num}.

End JS.

Import JS.

(** A 128-bit identifier. *)
Definition Uuid := N.

(** What the server takes from its runtime and from the driver's type
  library. *)
Class Platform := {
  (** JavaScript numbers. *)
  Num : Type;
  (** [false] exactly on [0], [-0] and [NaN]. *)
  num_truthy : Num -> bool;
  (** The global [parseFloat]. *)
  parseFloat : Value Num -> Num;
  (** [cassandra.types.Uuid.fromString]; [None] when it throws. *)
  Uuid_fromString : string -> option Uuid;
  (** [String.prototype.toLowerCase], with the full case mapping of the
      runtime. *)
  toLowerCase : string -> string;
  (** Lower-casing drops no character: the empty text, and only the
      empty text, becomes empty. *)
  toLowerCase_empty : forall s : string, toLowerCase s = "" <-> s = "";
}.

Section Values.
Context `{Platform}.

(** [!v] is [negb (truthy v)]. *)
Definition truthy (v : Value Num) : bool :=
  match v with
  | JUndefined | JNull => false
  | JBool b => b
  | JNum n => num_truthy n
  | JStr s => nonEmpty s
  | JObject => true
  end.

(** [v === undefined]. *)
Definition isUndefined (v : Value Num) : bool :=
  match v with
  | JUndefined => true
  | _ => false
  end.

(** [v === 'true' || v === true]. *)
Definition isTrueFlag (v : Value Num) : bool :=
  match v with
  | JStr s => String.eqb s "true"
  | JBool b => b
  | _ => false
  end.

End Values.

(** ** The [menu_items] table and the storage client *)

(** A bound parameter after the driver's typed encoding. *)
Inductive Param (A : Type) :=
| PUnset
| PNull
| PVal (a : A).
Arguments PUnset {A}.
Arguments PNull {A}.
Arguments PVal {A} a.

Section Storage.
Context `{Platform}.

(** The non-key columns of a [menu_items] row; [None] is CQL [null]. *)
Record Columns := {
  name : option string;
  description : option string;
  category : option string;
  price : option Num;
  is_vegetarian : option bool;
  created_at : option Z;
  updated_at : option Z;
}.

(** A row as the driver hands it out: the key and the other columns. *)
Definition Row : Type := Uuid * Columns.

Definition noColumns : Columns :=
  {| name := None; description := None; category := None; price := None;
     is_vegetarian := None; created_at := None; updated_at := None |}.

(** Everything the server sends through [client.connect] and
    [client.execute]. *)
Inductive Stmt :=
| Connect
| CreateKeyspace
| UseKeyspace
| CreateTable
| SelectLimit1
| SelectAll
| SelectById (id : Uuid)
| Insert (id : Uuid) (nm ds ct : Value Num) (pr : Num) (veg : bool)
         (created updated : Z)
| Update (nm ds ct : Value Num) (pr : Num) (veg : bool) (updated : Z)
         (id : Uuid)
| Delete (id : Uuid).

(** Encoding for a [text] column: a string is written, [null] clears the
    column, [undefined] leaves it unset, anything else is a [TypeError]
    ([None]). *)
Definition encodeText (v : Value Num) : option (Param string) :=
  match v with
  | JStr s => Some (PVal s)
  | JNull => Some PNull
  | JUndefined => Some PUnset
  | _ => None
  end.

Definition writeCell {A} (p : Param A) (old : option A) : option A :=
  match p with
  | PUnset => old
  | PNull => None
  | PVal a => Some a
  end.

(** The storage side: the table, and the log of every call the server
    has issued (most recent first), whether or not it succeeded. *)
Record Db := {
  table : gmap Uuid Columns;
  calls : list Stmt;
}.

Record ResultSet := { rows : option (list Row) }.

(** [SELECT *] yields the rows in the order the storage keeps them. *)
Definition scan (t : gmap Uuid Columns) : list Row := map_to_list t.

(** CQL semantics of one statement on the table.  [INSERT] and [UPDATE]
    both write the listed columns of the row with that key, creating it
    when it is absent; [DELETE] of an absent key changes nothing. *)
Definition runStmt (q : Stmt) (t : gmap Uuid Columns)
  : option (ResultSet * gmap Uuid Columns) :=
  match q with
  | Connect | CreateKeyspace | UseKeyspace | CreateTable =>
      Some ({| rows := None |}, t)
  | SelectLimit1 => Some ({| rows := Some (take 1 (scan t)) |}, t)
  | SelectAll => Some ({| rows := Some (scan t) |}, t)
  | SelectById id =>
      Some ({| rows := Some match t !! id with
                            | Some c => [(id, c)]
                            | None => []
                            end |}, t)
  | Insert id nm ds ct pr veg created updated =>
      match encodeText nm, encodeText ds, encodeText ct with
      | Some pn, Some pd, Some pc =>
          let old := default noColumns (t !! id) in
          Some ({| rows := None |},
                <[id := {| name := writeCell pn (name old);
                           description := writeCell pd (description old);
                           category := writeCell pc (category old);
                           price := Some pr;
                           is_vegetarian := Some veg;
                           created_at := Some created;
                           updated_at := Some updated |}]> t)
      | _, _, _ => None
      end
  | Update nm ds ct pr veg updated id =>
      match encodeText nm, encodeText ds, encodeText ct with
      | Some pn, Some pd, Some pc =>
          let old := default noColumns (t !! id) in
          Some ({| rows := None |},
                <[id := {| name := writeCell pn (name old);
                           description := writeCell pd (description old);
                           category := writeCell pc (category old);
                           price := Some pr;
                           is_vegetarian := Some veg;
                           created_at := created_at old;
                           updated_at := Some updated |}]> t)
      | _, _, _ => None
      end
  | Delete id => Some ({| rows := None |}, delete id t)
  end.

(** [client.execute]: the call is logged; with [fault = Some msg] the
    driver throws an error with that message (timeout, transport or
    query error) and the table is left alone; a parameter the driver
    cannot encode throws as well. *)
Definition execute (fault : option string) (q : Stmt) (db : Db)
  : (string + ResultSet) * Db :=
  let logged := {| table := table db; calls := q :: calls db |} in
  match fault with
  | Some msg => (inl msg, logged)
  | None =>
      match runStmt q (table db) with
      | Some (r, t') => (inr r, {| table := t'; calls := q :: calls db |})
      | None => (inl "Not a valid text value", logged)
      end
  end.

End Storage.

(** ** The HTTP layer *)

Section Server.
Context `{Platform}.

(** The fields a create or update handler destructures from [req.body];
    an absent field is [JUndefined]. *)
Record Body := {
  b_name : Value Num;
  b_description : Value Num;
  b_category : Value Num;
  b_price : Value Num;
  b_is_vegetarian : Value Num;
}.

(** The routes of the application. *)
Inductive Request :=
| GetMenuItems
| GetMenuItem (id : string)
| PostMenuItem (body : Body)
| PutMenuItem (id : string) (body : Body)
| DeleteMenuItem (id : string)
| GetSearch (q : Value Num)
| GetHealth
| GetDebugDb
| GetRoot.

(** What a handler reads from outside the process while it serves one
    request: the clock ([new Date()]), the identifier [Uuid.random()]
    would draw, and whether the storage call of this request fails. *)
Record Env := {
  now : Z;
  random : Uuid;
  fault : option string;
}.

Inductive Payload :=
| PError (error : string) (details : option string)
| PItems (items : list Row)
| PItem (item : Row)
| PCreated (id : Uuid) (message : string)
| PMessage (message : string)
| PHealth (database initialized : string)
| PDebug (connected initialized : bool).

Inductive Response :=
| Json (status : nat) (payload : Payload)
| Redirect (location : string)
| SendFile (file : string).

(** Where [connectToDatabase] is suspended. *)
Inductive Pc :=
| AwaitConnect
| AwaitCreateKeyspace
| AwaitUseKeyspace
| AwaitCreateTable
| AwaitTestQuery
| AwaitSleep (ms : Z)
| Returned
| Rejected.

(** The process: the two global flags, the state of the start-up task
    and the storage it talks to. *)
Record Server := {
  isDbConnected : bool;
  dbInitialized : bool;
  pc : Pc;
  db : Db;
}.

Definition withDb (s : Server) (d : Db) : Server :=
  {| isDbConnected := isDbConnected s; dbInitialized := dbInitialized s;
     pc := pc s; db := d |}.

(** The condition [checkDbConnection] lets a request through on. *)
Definition isReady (s : Server) : bool :=
  negb (negb (isDbConnected s) || negb (dbInitialized s)).

Definition notReady : Response :=
  Json 503 (PError
    "Database connection not established yet. Please try again in a few moments."
    None).

Definition checkDbConnection (next : Server -> Response * Server)
  (s : Server) : Response * Server :=
  if negb (isDbConnected s) || negb (dbInitialized s)
  then (notReady, s)
  else next s.

(** [result.rows && Array.isArray(result.rows) ? result.rows : []] *)
Definition rowsOrEmpty (r : ResultSet) : list Row :=
  match rows r with
  | Some l => l
  | None => []
  end.

Definition listMenuItems (e : Env) (s : Server) : Response * Server :=
  match execute (fault e) SelectAll (db s) with
  | (inr result, d) => (Json 200 (PItems (rowsOrEmpty result)), withDb s d)
  | (inl msg, d) =>
      (Json 500 (PError "Failed to fetch menu items" (Some msg)), withDb s d)
  end.

Definition getMenuItem (e : Env) (id : string) (s : Server)
  : Response * Server :=
  match Uuid_fromString id with
  | None => (Json 400 (PError "Invalid ID format" None), s)
  | Some uuid =>
      match execute (fault e) (SelectById uuid) (db s) with
      | (inr result, d) =>
          match rows result with
          | Some (item :: _) => (Json 200 (PItem item), withDb s d)
          | _ => (Json 404 (PError "Menu item not found" None), withDb s d)
          end
      | (inl msg, d) =>
          (Json 500 (PError "Failed to fetch menu item" (Some msg)),
           withDb s d)
      end
  end.

(** [!name || !description || !category || price === undefined] *)
Definition missingRequired (b : Body) : bool :=
  negb (truthy (b_name b)) || negb (truthy (b_description b))
  || negb (truthy (b_category b)) || isUndefined (b_price b).

Definition createMenuItem (e : Env) (b : Body) (s : Server)
  : Response * Server :=
  if missingRequired b
  then (Json 400 (PError "Missing required fields" None), s)
  else
    let id := random e in
    let priceValue := parseFloat (b_price b) in
    let isVegetarian := isTrueFlag (b_is_vegetarian b) in
    match execute (fault e)
            (Insert id (b_name b) (b_description b) (b_category b)
                    priceValue isVegetarian (now e) (now e)) (db s) with
    | (inr _, d) =>
        (Json 201 (PCreated id "Menu item created successfully"), withDb s d)
    | (inl msg, d) =>
        (Json 500 (PError "Failed to create menu item" (Some msg)),
         withDb s d)
    end.

Definition updateMenuItem (e : Env) (id : string) (b : Body) (s : Server)
  : Response * Server :=
  match Uuid_fromString id with
  | None => (Json 400 (PError "Invalid ID format" None), s)
  | Some uuid =>
      if missingRequired b
      then (Json 400 (PError "Missing required fields" None), s)
      else
        let priceValue := parseFloat (b_price b) in
        let isVegetarian := isTrueFlag (b_is_vegetarian b) in
        match execute (fault e)
                (Update (b_name b) (b_description b) (b_category b)
                        priceValue isVegetarian (now e) uuid) (db s) with
        | (inr _, d) =>
            (Json 200 (PMessage "Menu item updated successfully"), withDb s d)
        | (inl msg, d) =>
            (Json 500 (PError "Failed to update menu item" (Some msg)),
             withDb s d)
        end
  end.

Definition deleteMenuItem (e : Env) (id : string) (s : Server)
  : Response * Server :=
  match Uuid_fromString id with
  | None => (Json 400 (PError "Invalid ID format" None), s)
  | Some uuid =>
      match execute (fault e) (Delete uuid) (db s) with
      | (inr _, d) =>
          (Json 200 (PMessage "Menu item deleted successfully"), withDb s d)
      | (inl msg, d) =>
          (Json 500 (PError "Failed to delete menu item" (Some msg)),
           withDb s d)
      end
  end.

(** [req.query.q ? req.query.q.toLowerCase() : ''].  A truthy value
    that is not a string has no [toLowerCase] method: the call throws a
    [TypeError] ([None]). *)
Definition searchTermOf (q : Value Num) : option string :=
  if truthy q
  then match q with
       | JStr s => Some (toLowerCase s)
       | _ => None
       end
  else Some "".

(** [field && field.toLowerCase().includes(searchTerm)], read for its
    truthiness. *)
Definition fieldMatches (field : option string) (searchTerm : string) : bool :=
  match field with
  | Some v => nonEmpty v && includes (toLowerCase v) searchTerm
  | None => false
  end.

(** The predicate passed to [rows.filter]. *)
Definition itemMatches (searchTerm : string) (item : Row) : bool :=
  fieldMatches (name item.2) searchTerm
  || fieldMatches (description item.2) searchTerm
  || fieldMatches (category item.2) searchTerm.

Definition filteredItems (searchTerm : string) (l : list Row) : list Row :=
  List.filter (itemMatches searchTerm) l.

Definition searchMenuItems (e : Env) (q : Value Num) (s : Server)
  : Response * Server :=
  match searchTermOf q with
  | None =>
      (Json 500 (PError "Failed to search menu items"
                   (Some "req.query.q.toLowerCase is not a function")), s)
  | Some searchTerm =>
      if negb (nonEmpty searchTerm)
      then (Redirect "/api/menu-items", s)
      else
        match execute (fault e) SelectAll (db s) with
        | (inr result, d) =>
            (Json 200 (PItems (filteredItems searchTerm (rowsOrEmpty result))),
             withDb s d)
        | (inl msg, d) =>
            (Json 500 (PError "Failed to search menu items" (Some msg)),
             withDb s d)
        end
  end.

Definition health (s : Server) : Response * Server :=
  (Json 200 (PHealth (if isDbConnected s then "Connected" else "Disconnected")
                     (if dbInitialized s then "Yes" else "No")), s).

(** The route table. *)
Definition handle (e : Env) (r : Request) (s : Server) : Response * Server :=
  match r with
  | GetMenuItems => checkDbConnection (listMenuItems e) s
  | GetMenuItem id => checkDbConnection (getMenuItem e id) s
  | PostMenuItem b => checkDbConnection (createMenuItem e b) s
  | PutMenuItem id b => checkDbConnection (updateMenuItem e id b) s
  | DeleteMenuItem id => checkDbConnection (deleteMenuItem e id) s
  | GetSearch q => checkDbConnection (searchMenuItems e q) s
  | GetHealth => health s
  | GetDebugDb => (Json 200 (PDebug (isDbConnected s) (dbInitialized s)), s)
  | GetRoot => (SendFile "public/index.html", s)
  end.

(** The routes behind [checkDbConnection]: every one that reads or
    writes [menu_items]. *)
Definition touchesData (r : Request) : bool :=
  match r with
  | GetMenuItems | GetMenuItem _ | PostMenuItem _ | PutMenuItem _ _
  | DeleteMenuItem _ | GetSearch _ => true
  | GetHealth | GetDebugDb | GetRoot => false
  end.



(** ** The start-up task [connectToDatabase]

    The task runs between the requests: it is suspended at an [await]
    and resumed with the outcome of the awaited promise. *)

Inductive Outcome :=
| Fulfilled
| Failed.

(** The next call of the [try] block is issued and awaited. *)
Definition issue (q : Stmt) (p : Pc) (s : Server) : Server :=
  {| isDbConnected := isDbConnected s; dbInitialized := dbInitialized s;
     pc := p;
     db := {| table := table (db s); calls := q :: calls (db s) |} |}.

(** The [catch] block up to [await sleep(5000)]. *)
Definition catchBlock (s : Server) : Server :=
  {| isDbConnected := false; dbInitialized := false;
     pc := AwaitSleep 5000; db := db s |}.

(** The end of the [try] block: both flags are set and the task
    returns.  The two assignments run with no [await] between them, so
    no request is served in between. *)
Definition succeed (s : Server) : Server :=
  {| isDbConnected := true; dbInitialized := true;
     pc := Returned; db := db s |}.

Definition reject (s : Server) : Server :=
  {| isDbConnected := isDbConnected s; dbInitialized := dbInitialized s;
     pc := Rejected; db := db s |}.

(** The module calls [connectToDatabase()] once when it is loaded: the
    flags hold their initial values and [client.connect()] is pending.
    The table is whatever the cluster already holds. *)
Definition start (t : gmap Uuid Columns) : Server :=
  {| isDbConnected := false; dbInitialized := false;
     pc := AwaitConnect;
     db := {| table := t; calls := [Connect] |} |}.

Definition resume (o : Outcome) (s : Server) : Server :=
  match pc s, o with
  | AwaitConnect, Fulfilled => issue CreateKeyspace AwaitCreateKeyspace s
  | AwaitCreateKeyspace, Fulfilled => issue UseKeyspace AwaitUseKeyspace s
  | AwaitUseKeyspace, Fulfilled => issue CreateTable AwaitCreateTable s
  | AwaitCreateTable, Fulfilled => issue SelectLimit1 AwaitTestQuery s
  | AwaitTestQuery, Fulfilled => succeed s
  | (AwaitConnect | AwaitCreateKeyspace | AwaitUseKeyspace
     | AwaitCreateTable | AwaitTestQuery), Failed => catchBlock s
  (* [return connectToDatabase()] *)
  | AwaitSleep _, Fulfilled => issue Connect AwaitConnect s
  (* an exception inside [catch] would leave the async function *)
  | AwaitSleep _, Failed => reject s
  | (Returned | Rejected), _ => s
  end.

(** The awaits on the driver: the five steps of the sequence. *)
Definition awaitsDriver (p : Pc) : bool :=
  match p with
  | AwaitConnect | AwaitCreateKeyspace | AwaitUseKeyspace
  | AwaitCreateTable | AwaitTestQuery => true
  | _ => false
  end.

(** The outcomes an await can have: a driver call fulfils or fails, the
    timer behind [sleep] only ever fulfils, a finished task awaits
    nothing. *)
Definition admissible (o : Outcome) (p : Pc) : bool :=
  match p, o with
  | AwaitSleep _, Fulfilled => true
  | AwaitSleep _, Failed => false
  | (Returned | Rejected), _ => false
  | _, _ => true
  end.

(** What can happen to the process: the task is resumed, or a request
    is served. *)
Inductive Event :=
| Task (o : Outcome)
| Http (e : Env) (r : Request).

Definition fire (ev : Event) (s : Server) : option Server :=
  match ev with
  | Task o => if admissible o (pc s) then Some (resume o s) else None
  | Http e r => Some (handle e r s).2
  end.

Fixpoint run (evs : list Event) (s : Server) : option Server :=
  match evs with
  | [] => Some s
  | ev :: evs' =>
      match fire ev s with
      | Some s' => run evs' s'
      | None => None
      end
  end.

(** One attempt that fails at step [k] (counted from 0) and sleeps, and
    one that succeeds. *)
Definition failedAttempt (k : nat) : list Event :=
  (replicate (k `min` 4) (Task Fulfilled) ++ [Task Failed; Task Fulfilled])%list.

Definition successfulAttempt : list Event := replicate 5 (Task Fulfilled).

End Server.

(** ** The identifier parser of the driver

    [Uuid.fromString] belongs to the type library of the driver, not to
    this repository.  It takes a text of 36 code units, removes the
    hyphens, decodes what is left as hexadecimal, two digits to a byte,
    stopping at the first pair that is not two hexadecimal digits, and
    throws unless that gives 16 bytes. *)

(** [value.length]: the UTF-16 code units of a text held as UTF-8. *)
Fixpoint jsLength (s : string) : nat :=
  match s with
  | EmptyString => 0
  | String c r =>
      let n := N_of_ascii c in
      (if ((128 <=? n) && (n <=? 191))%N then 0
       else if (240 <=? n)%N then 2 else 1) + jsLength r
  end.

(** [value.replace(/-/g, '')] *)
Fixpoint removeHyphens (s : string) : string :=
  match s with
  | EmptyString => EmptyString
  | String c r =>
      if Ascii.eqb c "-" then removeHyphens r else String c (removeHyphens r)
  end.

Definition hexDigit (c : ascii) : option N :=
  let n := N_of_ascii c in
  if ((48 <=? n) && (n <=? 57))%N then Some (n - 48)%N
  else if ((97 <=? n) && (n <=? 102))%N then Some (n - 87)%N
  else if ((65 <=? n) && (n <=? 70))%N then Some (n - 55)%N
  else None.

(** [Buffer.from(text, 'hex')] *)
Fixpoint hexDecode (s : string) : list N :=
  match s with
  | String a (String b r) =>
      match hexDigit a, hexDigit b with
      | Some x, Some y => (16 * x + y)%N :: hexDecode r
      | _, _ => []
      end
  | _ => []
  end.

(** The 128-bit number of 16 bytes, most significant first. *)
Definition bytesToN (l : list N) : N :=
  fold_left (fun acc b => (256 * acc + b)%N) l 0%N.

Definition hexUuid (s : string) : option Uuid :=
  if Nat.eqb (jsLength s) 36
  then let buffer := hexDecode (removeHyphens s) in
       if Nat.eqb (length buffer) 16 then Some (bytesToN buffer) else None
  else None.




(** ** A reference platform, to run the model

    Numbers are integers, [parseFloat] reads a number as itself,
    lower-casing is that of ASCII texts, and identifiers are parsed as
    the driver parses them. *)

Definition asciiLowerCase_empty (s : string) :
  asciiLowerCase s = "" <-> s = "".
Proof. destruct s; cbn; split; congruence. Qed.

Definition refPlatform : Platform := {|
  Num := Z;
  num_truthy := fun z => negb (Z.eqb z 0);
  parseFloat := fun v => match v with JNum z => z | _ => 0%Z end;
  Uuid_fromString := hexUuid;
  toLowerCase := asciiLowerCase;
  toLowerCase_empty := asciiLowerCase_empty;
|}.

(** ** The vocabulary of the specification *)

Section Vocabulary.
Context `{Platform}.






(** The fields of a body are valid: the three texts are non-empty
    strings and a price is given. *)
Definition validFields (b : Body) (nm ds ct : string) : Prop :=
  b_name b = JStr nm /\ b_description b = JStr ds /\ b_category b = JStr ct
  /\ nm <> "" /\ ds <> "" /\ ct <> "" /\ b_price b <> JUndefined.

(** The row an update writes over [old]. *)
Definition updatedColumns (e : Env) (b : Body) (nm ds ct : string)
  (old : Columns) : Columns :=
  {| name := Some nm; description := Some ds; category := Some ct;
     price := Some (parseFloat (b_price b));
     is_vegetarian := Some (isTrueFlag (b_is_vegetarian b));
     created_at := created_at old;
     updated_at := Some (now e) |}.

Definition isNotFound (r : Response) : bool :=
  match r with
  | Json 404 _ => true
  | _ => false
  end.

(** The outcomes the start-up task was resumed with, oldest first. *)
Definition outcomes (evs : list Event) : list Outcome :=
  omap (fun ev => match ev with Task o => Some o | Http _ _ => None end) evs.

(** The calls of the current attempt that the task has issued when it
    waits at [p], most recent first. *)
Definition attemptCalls (p : Pc) : list Stmt :=
  match p with
  | AwaitConnect => [Connect]
  | AwaitCreateKeyspace => [CreateKeyspace; Connect]
  | AwaitUseKeyspace => [UseKeyspace; CreateKeyspace; Connect]
  | AwaitCreateTable => [CreateTable; UseKeyspace; CreateKeyspace; Connect]
  | AwaitTestQuery =>
      [SelectLimit1; CreateTable; UseKeyspace; CreateKeyspace; Connect]
  | AwaitSleep _ | Returned | Rejected => []
  end.

(** The steps of the current attempt that have succeeded when the task
    waits at [p]. *)
Definition stepsDone (p : Pc) : nat :=
  match p with
  | AwaitConnect | AwaitSleep _ | Rejected => 0
  | AwaitCreateKeyspace => 1
  | AwaitUseKeyspace => 2
  | AwaitCreateTable => 3
  | AwaitTestQuery => 4
  | Returned => 5
  end.

(** What holds of the process after any history [evs]. *)
Definition Inv (evs : list Event) (s : Server) : Prop :=
  isDbConnected s = dbInitialized s
  /\ (isDbConnected s = true <-> pc s = Returned)
  /\ pc s <> Rejected
  /\ (forall ms, pc s = AwaitSleep ms -> ms = 5000%Z)
  /\ (exists rest, calls (db s) = (attemptCalls (pc s) ++ rest)%list)
  /\ (exists before,
        outcomes evs = (before ++ replicate (stepsDone (pc s)) Fulfilled)%list).

End Vocabulary.

(** ** Sample data on the reference platform *)

Definition menuItem (nm ds ct : string) (t : Z) : @Columns refPlatform :=
  @Build_Columns refPlatform (Some nm) (Some ds) (Some ct) (Some 450%Z)
    (Some true) (Some t) (Some t).

Definition soupId : string := "00000000-0000-0000-0000-000000000007".
Definition burgerId : string := "00000000-0000-0000-0000-000000000009".
Definition freeId : string := "00000000-0000-0000-0000-00000000000b".

Definition demoTable : gmap Uuid (@Columns refPlatform) :=
  <[7%N := menuItem "Soup" "Tomato soup" "Starter" 10]>
    (<[9%N := menuItem "Veggie Burger" "chocolate" "Dessert" 12]> ∅).

Definition demoServer : @Server refPlatform :=
  @Build_Server refPlatform true true Returned
    (@Build_Db refPlatform demoTable []).

Definition demoEnv : Env := {| now := 20; random := 11%N; fault := None |}.

Definition saladBody : @Body refPlatform :=
  @Build_Body refPlatform (JStr "Salad") (JStr "Green salad")
    (JStr "Starter") (JNum 300%Z) (JBool true).

Definition noNameBody : @Body refPlatform :=
  @Build_Body refPlatform JUndefined (JStr "Green salad")
    (JStr "Starter") (JNum 300%Z) (JBool true).

(** The process right after a first attempt that succeeded, and in the
    middle of an attempt. *)
Definition readyAfterStart : @Server refPlatform :=
  @Build_Server refPlatform true true Returned
    (@Build_Db refPlatform demoTable
       [SelectLimit1; CreateTable; UseKeyspace; CreateKeyspace; Connect]).

Definition midAttempt : @Server refPlatform :=
  @Build_Server refPlatform false false AwaitUseKeyspace
    (@Build_Db refPlatform demoTable [UseKeyspace; CreateKeyspace; Connect]).

(** ** The bundled client ([public/app.js])

    The parts of the page script that decide what is sent to the
    server and when: the retry schedule of [fetchMenuItems], the
    readiness poll of [checkServerHealth], [performSearch] and the body
    the form submits.  A query string or JSON body reaches the handler
    as the client built it. *)

Section Client.
Context `{Platform}.

Definition MAX_RETRIES : Z := 5.

(** [Math.min(1000 * Math.pow(2, retryCount), 30000)] *)
Definition retryDelay (retryCount : Z) : Z :=
  Z.min (1000 * 2 ^ retryCount) 30000.

Inductive FetchResult :=
| FetchOk
| FetchError.

(** One run of [fetchMenuItems] on [retryCount]: the delay of the retry
    it schedules, if it schedules one, and the new [retryCount].  A
    success resets the counter; a failure below [MAX_RETRIES] schedules
    a retry and counts it. *)
Definition fetchMenuItems (r : FetchResult) (retryCount : Z) : option Z * Z :=
  match r with
  | FetchOk => (None, 0%Z)
  | FetchError =>
      if (retryCount <? MAX_RETRIES)%Z
      then (Some (retryDelay retryCount), (retryCount + 1)%Z)
      else (None, retryCount)
  end.

(** Successive runs of [fetchMenuItems]: the delays scheduled, oldest
    first, and the final counter. *)
Fixpoint fetchRuns (rs : list FetchResult) (retryCount : Z) : list Z * Z :=
  match rs with
  | [] => ([], retryCount)
  | r :: rs' =>
      let '(d, rc) := fetchMenuItems r retryCount in
      let '(ds, rc') := fetchRuns rs' rc in
      (match d with Some ms => ms :: ds | None => ds end, rc')
  end.












(** [checked.toString()] *)
Definition boolToString (b : bool) : string :=
  if b then "true" else "false".

(** [formData]: every input is sent as the string it holds. *)
Definition formData (nm ds ct pr : string) (checked : bool) : Body :=
  {| b_name := JStr nm; b_description := JStr ds; b_category := JStr ct;
     b_price := JStr pr; b_is_vegetarian := JStr (boolToString checked) |}.

(** The [submit] listener of the form. *)
Definition submitForm (isEditing : bool) (menuId : string)
  (nm ds ct pr : string) (checked : bool) : Request :=
  if isEditing
  then PutMenuItem menuId (formData nm ds ct pr checked)
  else PostMenuItem (formData nm ds ct pr checked).

End Client.

(** ** More vocabulary *)

Section MoreVocabulary.
Context `{Platform}.

(** The row a create writes. *)
Definition createdColumns (e : Env) (b : Body) (nm ds ct : string) : Columns :=
  {| name := Some nm; description := Some ds; category := Some ct;
     price := Some (parseFloat (b_price b));
     is_vegetarian := Some (isTrueFlag (b_is_vegetarian b));
     created_at := Some (now e);
     updated_at := Some (now e) |}.

(** The [GET] routes. *)
Definition readOnly (r : Request) : bool :=
  match r with
  | GetMenuItems | GetMenuItem _ | GetSearch _
  | GetHealth | GetDebugDb | GetRoot => true
  | PostMenuItem _ | PutMenuItem _ _ | DeleteMenuItem _ => false
  end.

(** The calls of [connectToDatabase]. *)
Definition isProvisioning (q : Stmt) : bool :=
  match q with
  | Connect | CreateKeyspace | UseKeyspace | CreateTable | SelectLimit1 => true
  | _ => false
  end.

(** The kind of statement each route sends. *)
Definition sentBy (r : Request) (q : Stmt) : bool :=
  match r, q with
  | GetMenuItems, SelectAll => true
  | GetSearch _, SelectAll => true
  | GetMenuItem _, SelectById _ => true
  | PostMenuItem _, Insert _ _ _ _ _ _ _ _ => true
  | PutMenuItem _ _, Update _ _ _ _ _ _ _ => true
  | DeleteMenuItem _, Delete _ => true
  | _, _ => false
  end.

End MoreVocabulary.

(** More sample data. *)
Definition coldEnv : Env :=
  {| now := 30; random := 12%N; fault := Some "Operation timed out" |}.

Definition laterEnv : Env := {| now := 40; random := 13%N; fault := None |}.

(** The clock reading of the tick in which the soup was last written. *)
Definition sameTickEnv : Env := {| now := 10; random := 14%N; fault := None |}.



(** * Properties *)

(** ** Strings *)

Section StringFacts.
Context `{Platform}.



Lemma nonEmpty_true (s : string) : nonEmpty s = true <-> s <> "".
Proof. destruct s; simpl; split; congruence. Qed.



End StringFacts.

(** ** The gate and the search filter *)

Section HandlerFacts.
Context `{Platform}.

Lemma isReady_true (s : Server) :
  isReady s = true <-> isDbConnected s = true /\ dbInitialized s = true.
Proof. unfold isReady. destruct (isDbConnected s), (dbInitialized s); simpl; intuition congruence. Qed.

Lemma gate_open (next : Server -> Response * Server) (s : Server) :
  isReady s = true -> checkDbConnection next s = next s.
Proof.
  unfold isReady, checkDbConnection.
  now destruct (negb (isDbConnected s) || negb (dbInitialized s)).
Qed.

Lemma gate_closed (next : Server -> Response * Server) (s : Server) :
  isReady s = false -> checkDbConnection next s = (notReady, s).
Proof.
  unfold isReady, checkDbConnection.
  now destruct (negb (isDbConnected s) || negb (dbInitialized s)).
Qed.

Lemma withDb_same (s : Server) : withDb s (db s) = s.
Proof. now destruct s. Qed.







End HandlerFacts.

(** ** Search *)








(** ** The readiness gate and request validation *)

(** C3.  [isReady] holds exactly when both flags are set, and while it
    does not hold every route that reads or writes the table answers
    503 with the "not established yet" message and leaves the whole
    server state, the storage call log included, as it was. *)
Theorem not_ready_requests_are_rejected `{Platform}
  (e : Env) (r : Request) (s : Server) :
  (isReady s = true <-> isDbConnected s = true /\ dbInitialized s = true)
  /\ (isReady s = false -> touchesData r = true ->
      handle e r s
      = (Json 503 (PError
           "Database connection not established yet. Please try again in a few moments."
           None), s)
      /\ calls (db (handle e r s).2) = calls (db s)).
Proof.
  split; [apply isReady_true|].
  intros Hcold Hdata.
  assert (Hgate : handle e r s = (notReady, s)).
  { destruct r; try discriminate Hdata; cbn [handle];
      now rewrite gate_closed. }
  rewrite Hgate. split; reflexivity.
Qed.

Lemma not_ready_requests_are_rejected_witness :
  handle demoEnv (DeleteMenuItem soupId) (start demoTable)
  = (notReady, start demoTable)
  /\ calls (db (handle demoEnv (DeleteMenuItem soupId) (start demoTable)).2)
     = calls (db (start demoTable)).
Proof.
  apply (not_ready_requests_are_rejected
           demoEnv (DeleteMenuItem soupId) (start demoTable));
    reflexivity.
Defined.

Section Validation.
Context `{Platform}.


Lemma validFields_pass (b : Body) (nm ds ct : string) :
  validFields b nm ds ct -> missingRequired b = false.
Proof.
  intros (Hn & Hd & Hc & Hnm & Hds & Hct & Hp). unfold missingRequired.
  rewrite Hn, Hd, Hc. cbn [truthy].
  apply nonEmpty_true in Hnm, Hds, Hct. rewrite Hnm, Hds, Hct.
  destruct (b_price b); try reflexivity. now destruct Hp.
Qed.

Lemma validFields_encode (b : Body) (nm ds ct : string) :
  validFields b nm ds ct ->
  encodeText (b_name b) = Some (PVal nm)
  /\ encodeText (b_description b) = Some (PVal ds)
  /\ encodeText (b_category b) = Some (PVal ct).
Proof. intros (-> & -> & -> & _). repeat split. Qed.

(** An update that passes the gate and both validations with a healthy
    storage: one [UPDATE], which writes the row under the parsed key. *)
Lemma update_valid (e : Env) (id : string) (uuid : Uuid) (b : Body)
  (nm ds ct : string) (s : Server) :
  isReady s = true -> Uuid_fromString id = Some uuid ->
  validFields b nm ds ct -> fault e = None ->
  handle e (PutMenuItem id b) s
  = (Json 200 (PMessage "Menu item updated successfully"),
     withDb s
       {| table := <[uuid := updatedColumns e b nm ds ct
                               (default noColumns (table (db s) !! uuid))]>
                     (table (db s));
          calls := Update (b_name b) (b_description b) (b_category b)
                     (parseFloat (b_price b)) (isTrueFlag (b_is_vegetarian b))
                     (now e) uuid :: calls (db s) |}).
Proof.
  intros Hready Hid Hvalid Hfault. cbn [handle].
  rewrite gate_open by exact Hready. unfold updateMenuItem.
  rewrite Hid, (validFields_pass _ _ _ _ Hvalid).
  unfold execute. rewrite Hfault. cbn [runStmt].
  destruct (validFields_encode _ _ _ _ Hvalid) as (-> & -> & ->).
  reflexivity.
Qed.

(** No branch of the update and delete handlers answers 404. *)
Lemma update_never_404 (e : Env) (id : string) (b : Body) (s : Server) :
  isNotFound (handle e (PutMenuItem id b) s).1 = false.
Proof.
  cbn [handle]. unfold checkDbConnection, updateMenuItem.
  destruct (negb (isDbConnected s) || negb (dbInitialized s)); [reflexivity|].
  destruct (Uuid_fromString id); [|reflexivity].
  destruct (missingRequired b); [reflexivity|].
  now destruct (execute _ _ _) as [[?|?] ?].
Qed.

Lemma delete_never_404 (e : Env) (id : string) (s : Server) :
  isNotFound (handle e (DeleteMenuItem id) s).1 = false.
Proof.
  cbn [handle]. unfold checkDbConnection, deleteMenuItem.
  destruct (negb (isDbConnected s) || negb (dbInitialized s)); [reflexivity|].
  destruct (Uuid_fromString id); [|reflexivity].
  now destruct (execute _ _ _) as [[?|?] ?].
Qed.

End Validation.

Section Parser.
Context `{Platform}.



End Parser.




(** ** Update and delete *)

(** C6, as the code has it.  On a ready server with a healthy storage,
    an update with valid fields whose identifier matches no row answers
    200 "Menu item updated successfully": the [UPDATE] creates the row
    with the submitted columns and no [created_at].  No branch of the
    update handler answers 404. *)
Theorem update_of_absent_id_creates_row `{Platform}
  (e : Env) (id : string) (uuid : Uuid) (b : Body) (nm ds ct : string)
  (s : Server) :
  isReady s = true -> Uuid_fromString id = Some uuid ->
  table (db s) !! uuid = None ->
  validFields b nm ds ct -> fault e = None ->
  (handle e (PutMenuItem id b) s).1
  = Json 200 (PMessage "Menu item updated successfully")
  /\ table (db (handle e (PutMenuItem id b) s).2)
     = <[uuid := updatedColumns e b nm ds ct noColumns]> (table (db s))
  /\ (forall (e' : Env) (b' : Body),
        isNotFound (handle e' (PutMenuItem id b') s).1 = false).
Proof.
  intros Hready Hid Habsent Hvalid Hfault.
  rewrite (update_valid e id uuid b nm ds ct s) by assumption.
  rewrite Habsent. repeat split. intros e' b'. apply update_never_404.
Qed.

Lemma update_of_absent_id_creates_row_witness :
  (handle demoEnv (PutMenuItem freeId saladBody) demoServer).1
  = Json 200 (PMessage "Menu item updated successfully")
  /\ table (db (handle demoEnv (PutMenuItem freeId saladBody) demoServer).2)
     = <[11%N := updatedColumns demoEnv saladBody "Salad" "Green salad"
                   "Starter" noColumns]> (table (db demoServer))
  /\ (forall (e' : Env) (b' : Body),
        isNotFound (handle e' (PutMenuItem freeId b') demoServer).1 = false).
Proof.
  apply (update_of_absent_id_creates_row demoEnv freeId 11%N saladBody
           "Salad" "Green salad" "Starter" demoServer);
    try reflexivity.
  repeat split; discriminate.
Defined.

(** C6 as stated fails: the identifier is well formed, no row has it,
    and the update answers 200, not 404. *)
Lemma update_of_absent_id_is_not_404 :
  hexUuid freeId = Some 11%N
  /\ table (db demoServer) !! 11%N = None
  /\ (handle demoEnv (PutMenuItem freeId saladBody) demoServer).1
     = Json 200 (PMessage "Menu item updated successfully")
  /\ isNotFound (handle demoEnv (PutMenuItem freeId saladBody) demoServer).1
     = false.
Proof. repeat split. Qed.

(** C7, as the code has it.  On a ready server with a healthy storage,
    an update with valid fields of an existing identifier writes
    [name], [description], [category], [price], [is_vegetarian] and
    [updated_at] of that row and nothing else: the row stays under its
    key with its [created_at], every other row is as it was, and
    [updated_at] becomes the clock reading of the update, whatever the
    value stored before. *)
Theorem update_writes_only_its_columns `{Platform}
  (e : Env) (id : string) (uuid : Uuid) (b : Body) (nm ds ct : string)
  (old : Columns) (s : Server) :
  isReady s = true -> Uuid_fromString id = Some uuid ->
  table (db s) !! uuid = Some old ->
  validFields b nm ds ct -> fault e = None ->
  (handle e (PutMenuItem id b) s).1
  = Json 200 (PMessage "Menu item updated successfully")
  /\ table (db (handle e (PutMenuItem id b) s).2)
     = <[uuid := {| name := Some nm; description := Some ds;
                    category := Some ct;
                    price := Some (parseFloat (b_price b));
                    is_vegetarian := Some (isTrueFlag (b_is_vegetarian b));
                    created_at := created_at old;
                    updated_at := Some (now e) |}]> (table (db s))
  /\ (exists new,
        table (db (handle e (PutMenuItem id b) s).2) !! uuid = Some new
        /\ created_at new = created_at old
        /\ updated_at new = Some (now e))
  /\ (forall k, k <> uuid ->
        table (db (handle e (PutMenuItem id b) s).2) !! k
        = table (db s) !! k)
  /\ dom (table (db (handle e (PutMenuItem id b) s).2)) = dom (table (db s)).
Proof.
  intros Hready Hid Hold Hvalid Hfault.
  rewrite (update_valid e id uuid b nm ds ct s) by assumption.
  rewrite Hold. cbn [fst snd withDb db table default]. unfold updatedColumns.
  split; [reflexivity|]. split; [reflexivity|]. split; [|split].
  - eexists. split; [apply lookup_insert_eq|]. cbn. split; reflexivity.
  - intros k Hk. now apply lookup_insert_ne.
  - apply dom_insert_lookup_L. now rewrite Hold.
Qed.

Lemma update_writes_only_its_columns_witness :
  (handle demoEnv (PutMenuItem soupId saladBody) demoServer).1
  = Json 200 (PMessage "Menu item updated successfully")
  /\ table (db (handle demoEnv (PutMenuItem soupId saladBody) demoServer).2)
     = <[7%N := {| name := Some "Salad"; description := Some "Green salad";
                   category := Some "Starter";
                   price := Some (parseFloat (b_price saladBody));
                   is_vegetarian := Some (isTrueFlag (b_is_vegetarian saladBody));
                   created_at := created_at (menuItem "Soup" "Tomato soup" "Starter" 10);
                   updated_at := Some (now demoEnv) |}]> (table (db demoServer))
  /\ (exists new,
        table (db (handle demoEnv (PutMenuItem soupId saladBody) demoServer).2)
          !! 7%N = Some new
        /\ created_at new = created_at (menuItem "Soup" "Tomato soup" "Starter" 10)
        /\ updated_at new = Some (now demoEnv))
  /\ (forall k, k <> 7%N ->
        table (db (handle demoEnv (PutMenuItem soupId saladBody) demoServer).2)
          !! k = table (db demoServer) !! k)
  /\ dom (table (db (handle demoEnv (PutMenuItem soupId saladBody) demoServer).2))
     = dom (table (db demoServer)).
Proof.
  apply (update_writes_only_its_columns demoEnv soupId 7%N saladBody
           "Salad" "Green salad" "Starter"
           (menuItem "Soup" "Tomato soup" "Starter" 10) demoServer);
    try reflexivity.
  repeat split; discriminate.
Defined.

(** C7 as stated fails when the clock has not moved on: the soup was
    last written at 10, an update read the clock at 10, and the
    [updated_at] it stores is 10, not a later value. *)
Lemma update_in_the_same_tick_is_not_later :
  exists old new,
    table (db demoServer) !! 7%N = Some old
    /\ table (db (handle sameTickEnv (PutMenuItem soupId saladBody)
                    demoServer).2) !! 7%N = Some new
    /\ updated_at old = Some 10%Z
    /\ updated_at new = Some 10%Z
    /\ ~ (10 < 10)%Z.
Proof.
  eexists _, _. split; [reflexivity|]. split; [reflexivity|].
  split; [reflexivity|]. split; [reflexivity | lia].
Qed.

(** C10.  On a ready server with a healthy storage, a delete with a
    well-formed identifier answers 200 "Menu item deleted
    successfully" whether or not a row has that identifier; when none
    has, the table is unchanged; and no branch of the delete handler
    answers 404. *)
Theorem delete_succeeds_without_a_row `{Platform}
  (e : Env) (id : string) (uuid : Uuid) (s : Server) :
  isReady s = true -> Uuid_fromString id = Some uuid -> fault e = None ->
  (handle e (DeleteMenuItem id) s).1
  = Json 200 (PMessage "Menu item deleted successfully")
  /\ (table (db s) !! uuid = None ->
      table (db (handle e (DeleteMenuItem id) s).2) = table (db s))
  /\ (forall e' : Env, isNotFound (handle e' (DeleteMenuItem id) s).1 = false).
Proof.
  intros Hready Hid Hfault.
  assert (Hdel : handle e (DeleteMenuItem id) s
                 = (Json 200 (PMessage "Menu item deleted successfully"),
                    withDb s {| table := delete uuid (table (db s));
                                calls := Delete uuid :: calls (db s) |})).
  { cbn [handle]. rewrite gate_open by exact Hready.
    unfold deleteMenuItem, execute. now rewrite Hid, Hfault. }
  rewrite Hdel. split; [reflexivity|]. split.
  - intros Habsent. cbn. now apply delete_id.
  - intros e'. apply delete_never_404.
Qed.

Lemma delete_succeeds_without_a_row_witness :
  (handle demoEnv (DeleteMenuItem freeId) demoServer).1
  = Json 200 (PMessage "Menu item deleted successfully")
  /\ (table (db demoServer) !! 11%N = None ->
      table (db (handle demoEnv (DeleteMenuItem freeId) demoServer).2)
      = table (db demoServer))
  /\ (forall e' : Env,
        isNotFound (handle e' (DeleteMenuItem freeId) demoServer).1 = false).
Proof.
  apply (delete_succeeds_without_a_row demoEnv freeId 11%N demoServer);
    reflexivity.
Defined.

(** ** The start-up task *)

Section Lifecycle.
Context `{Platform}.

Lemma run_snoc (evs : list Event) (ev : Event) (s0 : Server) :
  run (evs ++ [ev])%list s0
  = match run evs s0 with
    | Some s => fire ev s
    | None => None
    end.
Proof.
  revert s0. induction evs as [|ev' evs IH]; intros s0; simpl.
  - now destruct (fire ev s0).
  - destruct (fire ev' s0); [apply IH | reflexivity].
Qed.

Lemma run_app (evs1 evs2 : list Event) (s0 : Server) :
  run (evs1 ++ evs2)%list s0
  = match run evs1 s0 with
    | Some s => run evs2 s
    | None => None
    end.
Proof.
  revert s0. induction evs1 as [|ev evs1 IH]; intros s0; simpl.
  - reflexivity.
  - destruct (fire ev s0); [apply IH | reflexivity].
Qed.

(** A handler only ever replaces the storage component. *)
Lemma handle_frame (e : Env) (r : Request) (s : Server) :
  exists d, (handle e r s).2 = withDb s d.
Proof.
  assert (Hs : exists d, s = withDb s d)
    by (exists (db s); symmetry; apply withDb_same).
  destruct r; cbn [handle]; try exact Hs; unfold checkDbConnection;
    destruct (negb (isDbConnected s) || negb (dbInitialized s));
    try exact Hs.
  - unfold listMenuItems. destruct (execute _ _ _) as [[?|?] ?]; cbn; eauto.
  - unfold getMenuItem. destruct (Uuid_fromString id); [|exact Hs].
    destruct (execute _ _ _) as [[?|r] ?]; cbn; eauto.
    destruct (rows r) as [[|? ?]|]; cbn; eauto.
  - unfold createMenuItem. destruct (missingRequired body); [exact Hs|].
    destruct (execute _ _ _) as [[?|?] ?]; cbn; eauto.
  - unfold updateMenuItem. destruct (Uuid_fromString id); [|exact Hs].
    destruct (missingRequired body); [exact Hs|].
    destruct (execute _ _ _) as [[?|?] ?]; cbn; eauto.
  - unfold deleteMenuItem. destruct (Uuid_fromString id); [|exact Hs].
    destruct (execute _ _ _) as [[?|?] ?]; cbn; eauto.
  - unfold searchMenuItems. destruct (searchTermOf q); [|exact Hs].
    destruct (negb (nonEmpty s0)); [exact Hs|].
    destruct (execute _ _ _) as [[?|?] ?]; cbn; eauto.
Qed.

(** Until the flags are set no handler changes anything. *)
Lemma handle_cold (e : Env) (r : Request) (s : Server) :
  isReady s = false -> (handle e r s).2 = s.
Proof.
  intros Hcold. destruct r; cbn [handle]; try reflexivity;
    now rewrite gate_closed.
Qed.

Lemma Inv_start (t : gmap Uuid Columns) : Inv [] (start t).
Proof.
  unfold Inv. cbn. repeat split; try discriminate.
  - now exists [].
  - now exists [].
Qed.

Lemma outcomes_snoc (evs : list Event) (ev : Event) :
  outcomes (evs ++ [ev])%list
  = (outcomes evs ++ match ev with Task o => [o] | Http _ _ => [] end)%list.
Proof. unfold outcomes. rewrite omap_app. now destruct ev. Qed.

Lemma Inv_fire (evs : list Event) (ev : Event) (s s' : Server) :
  Inv evs s -> fire ev s = Some s' -> Inv (evs ++ [ev])%list s'.
Proof.
  intros (Heq & Htrue & Hrej & Hms & [rest Hcalls] & [before Hout]) Hfire.
  unfold Inv. rewrite outcomes_snoc. destruct ev as [o|e r].
  - cbn [fire] in Hfire. destruct s as [c i p d]. cbn in *.
    destruct p, o; cbn in Hfire; try discriminate;
      injection Hfire as <-; cbn in *; rewrite ?Hcalls, ?Hout;
      repeat match goal with
             | |- _ /\ _ => split
             | |- _ <-> _ => split
             end;
      try assumption; try discriminate; try reflexivity;
      try (intros Hc; apply Htrue in Hc; discriminate);
      try (intros ms' [= <-]; reflexivity);
      try (eexists; reflexivity);
      try (exists before; rewrite <- app_assoc; reflexivity);
      try (eexists; symmetry; apply app_nil_r).
  - cbn [fire] in Hfire. injection Hfire as <-. rewrite app_nil_r.
    destruct (isReady s) eqn:Hready.
    + destruct (handle_frame e r s) as [d ->]. cbn.
      apply isReady_true in Hready as [Hc _]. apply Htrue in Hc.
      rewrite Hc in *. repeat split; try tauto; try discriminate.
      * now exists (calls d).
      * now exists before.
    + rewrite handle_cold by exact Hready. repeat split; try tauto; eauto.
Qed.

Lemma Inv_run (t : gmap Uuid Columns) (evs : list Event) (s : Server) :
  run evs (start t) = Some s -> Inv evs s.
Proof.
  revert s. induction evs as [|ev evs IH] using rev_ind; intros s Hrun.
  - injection Hrun as <-. apply Inv_start.
  - rewrite run_snoc in Hrun.
    destruct (run evs (start t)) as [s1|] eqn:Hrun1; [|discriminate].
    eapply Inv_fire; eauto.
Qed.

End Lifecycle.

Section Retry.
Context `{Platform}.

(** An attempt that fails at any step leaves the task where it began:
    waiting for [client.connect()], flags down, table untouched. *)
Lemma failedAttempt_retries (k : nat) (s : Server) :
  pc s = AwaitConnect -> isDbConnected s = false -> dbInitialized s = false ->
  exists s',
    run (failedAttempt k) s = Some s'
    /\ pc s' = AwaitConnect
    /\ isDbConnected s' = false /\ dbInitialized s' = false
    /\ table (db s') = table (db s).
Proof.
  destruct s as [c i p d]. cbn. intros -> -> ->.
  destruct k as [|[|[|[|[|k]]]]]; eexists; (split; [reflexivity|]);
    repeat split.
Qed.

Lemma successfulAttempt_returns (s : Server) :
  pc s = AwaitConnect ->
  exists s',
    run successfulAttempt s = Some s' /\ isReady s' = true /\ pc s' = Returned.
Proof.
  destruct s as [c i p d]. cbn. intros ->.
  eexists. split; [reflexivity|]. split; reflexivity.
Qed.

(** Any number of failed attempts, then a successful one. *)
Lemma attempts_converge (ks : list nat) (s : Server) :
  pc s = AwaitConnect -> isDbConnected s = false -> dbInitialized s = false ->
  exists s',
    run (flat_map failedAttempt ks ++ successfulAttempt)%list s = Some s'
    /\ isReady s' = true /\ pc s' = Returned.
Proof.
  revert s. induction ks as [|k ks IH]; intros s Hpc Hc Hi.
  - now apply successfulAttempt_returns.
  - destruct (failedAttempt_retries k s Hpc Hc Hi)
      as (s1 & Hrun & Hpc1 & Hc1 & Hi1 & _).
    cbn [flat_map]. rewrite <- app_assoc, run_app, Hrun. now apply IH.
Qed.

End Retry.

(** C4.  Both flags start false, and after any history of task steps
    and requests they are equal.  They are false for as long as the
    task has not returned; they are true only once it has, and then the
    last five outcomes the task saw were the successes of connect,
    create keyspace, use keyspace, create table and the verification
    read, issued in that order.  A failure at any of the five steps
    leaves both flags false. *)
Theorem flags_move_together `{Platform}
  (t : gmap Uuid Columns) (evs : list Event) (s : Server) :
  run evs (start t) = Some s ->
  (isDbConnected (start t) = false /\ dbInitialized (start t) = false)
  /\ isDbConnected s = dbInitialized s
  /\ (pc s <> Returned ->
        isDbConnected s = false /\ dbInitialized s = false)
  /\ (isDbConnected s = true ->
        pc s = Returned
        /\ exists before,
             outcomes evs = (before ++ replicate 5 Fulfilled)%list)
  /\ (pc s = AwaitTestQuery ->
        (exists rest,
           calls (db s)
           = (SelectLimit1 :: CreateTable :: UseKeyspace :: CreateKeyspace
              :: Connect :: rest))
        /\ isDbConnected (resume Fulfilled s) = true
        /\ dbInitialized (resume Fulfilled s) = true)
  /\ (awaitsDriver (pc s) = true ->
        isDbConnected (resume Failed s) = false
        /\ dbInitialized (resume Failed s) = false).
Proof.
  intros Hrun.
  destruct (Inv_run t evs s Hrun)
    as (Heq & Htrue & _ & _ & [rest Hcalls] & [before Hout]).
  split; [split; reflexivity|]. split; [exact Heq|]. split; [|split; [|split]].
  - intros Hpc. rewrite <- Heq.
    destruct (isDbConnected s); [|now split].
    destruct Hpc. now apply Htrue.
  - intros Hc. apply Htrue in Hc. split; [exact Hc|].
    rewrite Hc in Hout. now exists before.
  - intros Hpc. unfold resume. rewrite Hpc in *. repeat split.
    now exists rest.
  - intros Hio. unfold resume.
    destruct (pc s); try discriminate Hio; split; reflexivity.
Qed.

Lemma flags_move_together_witness :
  (isDbConnected (start demoTable) = false
   /\ dbInitialized (start demoTable) = false)
  /\ isDbConnected readyAfterStart = dbInitialized readyAfterStart
  /\ (pc readyAfterStart <> Returned ->
        isDbConnected readyAfterStart = false
        /\ dbInitialized readyAfterStart = false)
  /\ (isDbConnected readyAfterStart = true ->
        pc readyAfterStart = Returned
        /\ exists before,
             outcomes (@successfulAttempt refPlatform)
             = (before ++ replicate 5 Fulfilled)%list)
  /\ (pc readyAfterStart = AwaitTestQuery ->
        (exists rest,
           calls (db readyAfterStart)
           = (SelectLimit1 :: CreateTable :: UseKeyspace :: CreateKeyspace
              :: Connect :: rest))
        /\ isDbConnected (resume Fulfilled readyAfterStart) = true
        /\ dbInitialized (resume Fulfilled readyAfterStart) = true)
  /\ (awaitsDriver (pc readyAfterStart) = true ->
        isDbConnected (resume Failed readyAfterStart) = false
        /\ dbInitialized (resume Failed readyAfterStart) = false).
Proof.
  apply (flags_move_together demoTable successfulAttempt readyAfterStart).
  reflexivity.
Defined.

(** C5.  After any history the task has not been rejected, and unless it
    has returned it can be resumed; every sleep it is in lasts 5000 ms.
    A failure at any of the five steps runs the [catch] block: both
    flags false, no further call, a 5000 ms sleep; when the timer fires
    the task issues [client.connect()] again, the first step of the
    sequence.  However many attempts fail, at whichever steps, a later
    successful attempt still makes the server ready: there is no
    attempt limit and the delay never changes. *)
Theorem failed_attempt_is_retried `{Platform}
  (t : gmap Uuid Columns) (evs : list Event) (s : Server) :
  run evs (start t) = Some s ->
  pc s <> Rejected
  /\ (pc s <> Returned -> admissible Fulfilled (pc s) = true)
  /\ (forall ms, pc s = AwaitSleep ms -> ms = 5000%Z)
  /\ (awaitsDriver (pc s) = true ->
        isDbConnected (resume Failed s) = false
        /\ dbInitialized (resume Failed s) = false
        /\ pc (resume Failed s) = AwaitSleep 5000
        /\ db (resume Failed s) = db s
        /\ admissible Failed (pc (resume Failed s)) = false
        /\ pc (resume Fulfilled (resume Failed s)) = AwaitConnect
        /\ calls (db (resume Fulfilled (resume Failed s)))
           = Connect :: calls (db s)
        /\ isReady (resume Fulfilled (resume Failed s)) = false)
  /\ (forall ks : list nat,
        exists s',
          run (flat_map failedAttempt ks ++ successfulAttempt)%list (start t)
          = Some s'
          /\ isReady s' = true /\ pc s' = Returned).
Proof.
  intros Hrun.
  destruct (Inv_run t evs s Hrun) as (_ & _ & Hrej & Hms & _ & _).
  split; [exact Hrej|]. split; [|split; [exact Hms|split]].
  - intros Hret. now destruct (pc s).
  - intros Hio. unfold resume at 1 2 3 4 5.
    destruct s as [c i p d]. cbn in *.
    destruct p; try discriminate Hio; repeat split.
  - intros ks. now apply attempts_converge.
Qed.

Lemma failed_attempt_is_retried_witness :
  pc midAttempt <> Rejected
  /\ (pc midAttempt <> Returned -> admissible Fulfilled (pc midAttempt) = true)
  /\ (forall ms, pc midAttempt = AwaitSleep ms -> ms = 5000%Z)
  /\ (awaitsDriver (pc midAttempt) = true ->
        isDbConnected (resume Failed midAttempt) = false
        /\ dbInitialized (resume Failed midAttempt) = false
        /\ pc (resume Failed midAttempt) = AwaitSleep 5000
        /\ db (resume Failed midAttempt) = db midAttempt
        /\ admissible Failed (pc (resume Failed midAttempt)) = false
        /\ pc (resume Fulfilled (resume Failed midAttempt)) = AwaitConnect
        /\ calls (db (resume Fulfilled (resume Failed midAttempt)))
           = Connect :: calls (db midAttempt)
        /\ isReady (resume Fulfilled (resume Failed midAttempt)) = false)
  /\ (forall ks : list nat,
        exists s',
          run (flat_map failedAttempt ks ++ successfulAttempt)%list
            (start demoTable)
          = Some s'
          /\ isReady s' = true /\ pc s' = Returned).
Proof.
  apply (failed_attempt_is_retried demoTable
           [Task Fulfilled; Task Fulfilled] midAttempt).
  reflexivity.
Defined.

(** * Further properties of the handlers *)

Section CrudFacts.
Context `{Platform}.

Lemma isReady_withDb (s : Server) (d : Db) : isReady (withDb s d) = isReady s.
Proof. reflexivity. Qed.

(** A create that passes the gate and the validation with a healthy
    storage: one [INSERT] under the identifier drawn for it. *)
Lemma create_valid (e : Env) (b : Body) (nm ds ct : string) (s : Server) :
  isReady s = true -> validFields b nm ds ct -> fault e = None ->
  handle e (PostMenuItem b) s
  = (Json 201 (PCreated (random e) "Menu item created successfully"),
     withDb s
       {| table := <[random e := createdColumns e b nm ds ct]> (table (db s));
          calls := Insert (random e) (b_name b) (b_description b)
                     (b_category b) (parseFloat (b_price b))
                     (isTrueFlag (b_is_vegetarian b)) (now e) (now e)
                   :: calls (db s) |}).
Proof.
  intros Hready Hvalid Hfault. cbn [handle].
  rewrite gate_open by exact Hready. unfold createMenuItem.
  rewrite (validFields_pass _ _ _ _ Hvalid).
  unfold execute. rewrite Hfault. cbn [runStmt].
  destruct (validFields_encode _ _ _ _ Hvalid) as (-> & -> & ->).
  reflexivity.
Qed.

(** A fetch by identifier that passes the gate and the parser with a
    healthy storage: one [SELECT] by key. *)
Lemma get_valid (e : Env) (id : string) (uuid : Uuid) (s : Server) :
  isReady s = true -> Uuid_fromString id = Some uuid -> fault e = None ->
  handle e (GetMenuItem id) s
  = (match table (db s) !! uuid with
     | Some c => Json 200 (PItem (uuid, c))
     | None => Json 404 (PError "Menu item not found" None)
     end,
     withDb s {| table := table (db s);
                 calls := SelectById uuid :: calls (db s) |}).
Proof.
  intros Hready Hid Hfault. cbn [handle].
  rewrite gate_open by exact Hready. unfold getMenuItem, execute.
  rewrite Hid, Hfault. cbn. now destruct (table (db s) !! uuid).
Qed.

Lemma delete_valid (e : Env) (id : string) (uuid : Uuid) (s : Server) :
  isReady s = true -> Uuid_fromString id = Some uuid -> fault e = None ->
  handle e (DeleteMenuItem id) s
  = (Json 200 (PMessage "Menu item deleted successfully"),
     withDb s {| table := delete uuid (table (db s));
                 calls := Delete uuid :: calls (db s) |}).
Proof.
  intros Hready Hid Hfault. cbn [handle].
  rewrite gate_open by exact Hready.
  unfold deleteMenuItem, execute. now rewrite Hid, Hfault.
Qed.

End CrudFacts.

(** X1.  A created item can be fetched at once: on a ready server with
    a healthy storage, a create with valid fields answers 201 with the
    identifier drawn for it, and a fetch by any text of that identifier
    then answers 200 with the submitted fields, [created_at] and
    [updated_at] both being the time of the create. *)
Theorem created_item_can_be_fetched `{Platform}
  (e e2 : Env) (id : string) (b : Body) (nm ds ct : string) (s : Server) :
  isReady s = true -> validFields b nm ds ct ->
  fault e = None -> fault e2 = None ->
  Uuid_fromString id = Some (random e) ->
  (handle e (PostMenuItem b) s).1
  = Json 201 (PCreated (random e) "Menu item created successfully")
  /\ (handle e2 (GetMenuItem id) (handle e (PostMenuItem b) s).2).1
     = Json 200 (PItem (random e,
         {| name := Some nm; description := Some ds; category := Some ct;
            price := Some (parseFloat (b_price b));
            is_vegetarian := Some (isTrueFlag (b_is_vegetarian b));
            created_at := Some (now e); updated_at := Some (now e) |})).
Proof.
  intros Hready Hvalid Hfault Hfault2 Hid.
  rewrite (create_valid e b nm ds ct s) by assumption.
  split; [reflexivity|]. cbn [snd].
  rewrite (get_valid e2 id (random e)) by assumption.
  cbn [fst withDb db table]. now rewrite lookup_insert_eq.
Qed.

Lemma created_item_can_be_fetched_witness :
  (handle demoEnv (PostMenuItem saladBody) demoServer).1
  = Json 201 (PCreated (random demoEnv) "Menu item created successfully")
  /\ (handle laterEnv (GetMenuItem freeId)
        (handle demoEnv (PostMenuItem saladBody) demoServer).2).1
     = Json 200 (PItem (random demoEnv,
         {| name := Some "Salad"; description := Some "Green salad";
            category := Some "Starter";
            price := Some (parseFloat (b_price saladBody));
            is_vegetarian := Some (isTrueFlag (b_is_vegetarian saladBody));
            created_at := Some (now demoEnv);
            updated_at := Some (now demoEnv) |})).
Proof.
  apply (created_item_can_be_fetched demoEnv laterEnv freeId saladBody
           "Salad" "Green salad" "Starter" demoServer);
    try reflexivity.
  repeat split; discriminate.
Defined.

(** X2.  A deleted item is gone: on a ready server with a healthy
    storage, after a delete with a well-formed identifier a fetch by
    that identifier answers 404 "Menu item not found", and the delete
    has left every other row as it was. *)
Theorem deleted_item_is_not_found `{Platform}
  (e e2 : Env) (id : string) (uuid : Uuid) (s : Server) :
  isReady s = true -> Uuid_fromString id = Some uuid ->
  fault e = None -> fault e2 = None ->
  (handle e2 (GetMenuItem id) (handle e (DeleteMenuItem id) s).2).1
  = Json 404 (PError "Menu item not found" None)
  /\ (forall k, k <> uuid ->
        table (db (handle e (DeleteMenuItem id) s).2) !! k
        = table (db s) !! k).
Proof.
  intros Hready Hid Hfault Hfault2.
  rewrite (delete_valid e id uuid) by assumption. cbn [snd]. split.
  - rewrite (get_valid e2 id uuid) by assumption.
    cbn [fst withDb db table]. now rewrite lookup_delete_eq.
  - intros k Hk. cbn. now apply lookup_delete_ne.
Qed.

Lemma deleted_item_is_not_found_witness :
  (handle laterEnv (GetMenuItem soupId)
     (handle demoEnv (DeleteMenuItem soupId) demoServer).2).1
  = Json 404 (PError "Menu item not found" None)
  /\ (forall k, k <> 7%N ->
        table (db (handle demoEnv (DeleteMenuItem soupId) demoServer).2) !! k
        = table (db demoServer) !! k).
Proof.
  apply (deleted_item_is_not_found demoEnv laterEnv soupId 7%N demoServer);
    reflexivity.
Defined.

(** X3.  A fetch by a well-formed identifier, on a ready server with a
    healthy storage, answers 200 with the stored row exactly when a row
    has that identifier and 404 otherwise, and never changes the
    table. *)
Theorem fetch_by_id_finds_exactly_the_stored_row `{Platform}
  (e : Env) (id : string) (uuid : Uuid) (s : Server) :
  isReady s = true -> Uuid_fromString id = Some uuid -> fault e = None ->
  (forall c, table (db s) !! uuid = Some c <->
             (handle e (GetMenuItem id) s).1 = Json 200 (PItem (uuid, c)))
  /\ (table (db s) !! uuid = None <->
      (handle e (GetMenuItem id) s).1
      = Json 404 (PError "Menu item not found" None))
  /\ table (db (handle e (GetMenuItem id) s).2) = table (db s).
Proof.
  intros Hready Hid Hfault.
  rewrite (get_valid e id uuid) by assumption. cbn [fst snd].
  destruct (table (db s) !! uuid) as [c0|]; repeat split;
    try congruence; try discriminate.
Qed.

Lemma fetch_by_id_finds_exactly_the_stored_row_witness :
  (forall c, table (db demoServer) !! 9%N = Some c <->
             (handle demoEnv (GetMenuItem burgerId) demoServer).1
             = Json 200 (PItem (9%N, c)))
  /\ (table (db demoServer) !! 9%N = None <->
      (handle demoEnv (GetMenuItem burgerId) demoServer).1
      = Json 404 (PError "Menu item not found" None))
  /\ table (db (handle demoEnv (GetMenuItem burgerId) demoServer).2)
     = table (db demoServer).
Proof.
  apply (fetch_by_id_finds_exactly_the_stored_row
           demoEnv burgerId 9%N demoServer);
    reflexivity.
Defined.

(** X4.  A failing storage call is reported, not hidden and not fatal:
    whatever the request and the server state, when the storage call of
    the request fails with a message the table is unchanged, and either
    no call was issued or exactly one was and the answer is 500 with
    that message as its details. *)
Theorem storage_fault_is_reported `{Platform}
  (e : Env) (r : Request) (s : Server) (msg : string) :
  fault e = Some msg ->
  table (db (handle e r s).2) = table (db s)
  /\ (calls (db (handle e r s).2) = calls (db s)
      \/ exists m q,
           (handle e r s).1 = Json 500 (PError m (Some msg))
           /\ calls (db (handle e r s).2) = q :: calls (db s)).
Proof.
  intros Hfault.
  destruct r; cbn [handle]; try (split; [reflexivity | left; reflexivity]);
    unfold checkDbConnection;
    (destruct (negb (isDbConnected s) || negb (dbInitialized s));
       [split; [reflexivity | left; reflexivity]|]).
  - unfold listMenuItems, execute. rewrite Hfault. cbn.
    split; [reflexivity | right; eexists _, _; split; reflexivity].
  - unfold getMenuItem. destruct (Uuid_fromString id); [|now split; [|left]].
    unfold execute. rewrite Hfault. cbn.
    split; [reflexivity | right; eexists _, _; split; reflexivity].
  - unfold createMenuItem. destruct (missingRequired body); [now split; [|left]|].
    unfold execute. rewrite Hfault. cbn.
    split; [reflexivity | right; eexists _, _; split; reflexivity].
  - unfold updateMenuItem. destruct (Uuid_fromString id); [|now split; [|left]].
    destruct (missingRequired body); [now split; [|left]|].
    unfold execute. rewrite Hfault. cbn.
    split; [reflexivity | right; eexists _, _; split; reflexivity].
  - unfold deleteMenuItem. destruct (Uuid_fromString id); [|now split; [|left]].
    unfold execute. rewrite Hfault. cbn.
    split; [reflexivity | right; eexists _, _; split; reflexivity].
  - unfold searchMenuItems. destruct (searchTermOf q); [|now split; [|left]].
    destruct (negb (nonEmpty s0)); [now split; [|left]|].
    unfold execute. rewrite Hfault. cbn.
    split; [reflexivity | right; eexists _, _; split; reflexivity].
Qed.

Lemma storage_fault_is_reported_witness :
  table (db (handle coldEnv (PutMenuItem soupId saladBody) demoServer).2)
  = table (db demoServer)
  /\ (calls (db (handle coldEnv (PutMenuItem soupId saladBody) demoServer).2)
      = calls (db demoServer)
      \/ exists m q,
           (handle coldEnv (PutMenuItem soupId saladBody) demoServer).1
           = Json 500 (PError m (Some "Operation timed out"))
           /\ calls (db (handle coldEnv (PutMenuItem soupId saladBody)
                           demoServer).2)
              = q :: calls (db demoServer)).
Proof.
  apply (storage_fault_is_reported coldEnv (PutMenuItem soupId saladBody)
           demoServer "Operation timed out").
  reflexivity.
Defined.

(** X5.  The required-field check of a create is a truthiness check on
    the three texts and an absence check on the price.  On a ready
    server a create whose [name], [description] or [category] is falsy
    (empty string, [null], [false], absent) is answered 400 with the
    state unchanged; a create whose three texts are truthy and whose
    price is anything but absent ([null], [0] and the empty string
    included) passes the check: the [INSERT] is sent. *)
Theorem create_checks_texts_for_truth_and_price_for_presence `{Platform}
  (e : Env) (b : Body) (s : Server) :
  isReady s = true ->
  (truthy (b_name b) = false \/ truthy (b_description b) = false
   \/ truthy (b_category b) = false ->
   handle e (PostMenuItem b) s
   = (Json 400 (PError "Missing required fields" None), s))
  /\ (truthy (b_name b) = true -> truthy (b_description b) = true ->
      truthy (b_category b) = true -> b_price b <> JUndefined ->
      calls (db (handle e (PostMenuItem b) s).2)
      = Insert (random e) (b_name b) (b_description b) (b_category b)
          (parseFloat (b_price b)) (isTrueFlag (b_is_vegetarian b))
          (now e) (now e) :: calls (db s)).
Proof.
  intros Hready. cbn [handle]. rewrite gate_open by exact Hready.
  unfold createMenuItem, missingRequired. split.
  - intros [Hb | [Hb | Hb]]; rewrite Hb; cbn [negb orb];
      rewrite ?orb_true_r; reflexivity.
  - intros -> -> -> Hprice. cbn [negb orb].
    destruct (b_price b); try (now destruct Hprice); cbn [isUndefined];
      unfold execute; destruct (fault e); cbn [snd db calls withDb];
      try reflexivity;
      now destruct (runStmt _ _) as [[? ?]|].
Qed.

Lemma create_checks_texts_for_truth_and_price_for_presence_witness :
  (truthy (b_name noNameBody) = false
   \/ truthy (b_description noNameBody) = false
   \/ truthy (b_category noNameBody) = false ->
   handle demoEnv (PostMenuItem noNameBody) demoServer
   = (Json 400 (PError "Missing required fields" None), demoServer))
  /\ (truthy (b_name noNameBody) = true ->
      truthy (b_description noNameBody) = true ->
      truthy (b_category noNameBody) = true ->
      b_price noNameBody <> JUndefined ->
      calls (db (handle demoEnv (PostMenuItem noNameBody) demoServer).2)
      = Insert (random demoEnv) (b_name noNameBody)
          (b_description noNameBody) (b_category noNameBody)
          (parseFloat (b_price noNameBody))
          (isTrueFlag (b_is_vegetarian noNameBody))
          (now demoEnv) (now demoEnv) :: calls (db demoServer)).
Proof.
  apply (create_checks_texts_for_truth_and_price_for_presence
           demoEnv noNameBody demoServer).
  reflexivity.
Defined.

(** X6.  A search whose [q] is truthy but not a string (the query
    parser yields an array for a repeated key) has no [toLowerCase]:
    on a ready server the answer is 500 "Failed to search menu items",
    no storage call is issued and the state is unchanged. *)
Theorem search_with_non_string_term_fails `{Platform}
  (e : Env) (q : Value Num) (s : Server) :
  isReady s = true -> truthy q = true -> (forall t, q <> JStr t) ->
  exists details,
    handle e (GetSearch q) s
    = (Json 500 (PError "Failed to search menu items" (Some details)), s).
Proof.
  intros Hready Htruthy Hq. cbn [handle]. rewrite gate_open by exact Hready.
  unfold searchMenuItems, searchTermOf. rewrite Htruthy.
  destruct q; try (eexists; reflexivity). now destruct (Hq s0).
Qed.

Lemma search_with_non_string_term_fails_witness :
  exists details,
    handle demoEnv (GetSearch JObject) demoServer
    = (Json 500 (PError "Failed to search menu items" (Some details)),
       demoServer).
Proof.
  apply (search_with_non_string_term_fails demoEnv JObject demoServer);
    [reflexivity | reflexivity | discriminate].
Defined.

Section SearchCase.
Context `{Platform}.


End SearchCase.



(** X8.  The [GET] routes never write: whatever the state, the
    parameters and the outcome of the storage call, the listing, the
    fetch by identifier, the search, [/health], [/debug/db] and [/]
    leave the table as it was. *)
Theorem get_routes_never_change_the_table `{Platform}
  (e : Env) (r : Request) (s : Server) :
  readOnly r = true -> table (db (handle e r s).2) = table (db s).
Proof.
  intros Hro. destruct r; try discriminate Hro; cbn [handle];
    try reflexivity; unfold checkDbConnection;
    (destruct (negb (isDbConnected s) || negb (dbInitialized s));
       [reflexivity|]).
  - unfold listMenuItems, execute. now destruct (fault e).
  - unfold getMenuItem. destruct (Uuid_fromString id); [|reflexivity].
    unfold execute. destruct (fault e); [reflexivity|]. cbn.
    now destruct (table (db s) !! u).
  - unfold searchMenuItems. destruct (searchTermOf q); [|reflexivity].
    destruct (negb (nonEmpty s0)); [reflexivity|].
    unfold execute. now destruct (fault e).
Qed.

Lemma get_routes_never_change_the_table_witness :
  table (db (handle demoEnv (GetSearch (JStr "soup")) demoServer).2)
  = table (db demoServer).
Proof.
  apply (get_routes_never_change_the_table
           demoEnv (GetSearch (JStr "soup")) demoServer).
  reflexivity.
Defined.

(** X9.  No handler writes the connection state: whatever the request
    and its outcome, both flags and the state of the start-up task are
    after the request what they were before it. *)
Theorem handlers_never_write_the_flags `{Platform}
  (e : Env) (r : Request) (s : Server) :
  isDbConnected (handle e r s).2 = isDbConnected s
  /\ dbInitialized (handle e r s).2 = dbInitialized s
  /\ pc (handle e r s).2 = pc s
  /\ isReady (handle e r s).2 = isReady s.
Proof.
  destruct (handle_frame e r s) as [d ->]. repeat split.
Qed.

(** X10.  A request sends at most one statement to the storage, of the
    kind of its route: a full [SELECT *] for the listing and for every
    search, a [SELECT] by key for the fetch, the [INSERT], [UPDATE] or
    [DELETE] itself for the writes, with no read before a write. *)
Theorem one_statement_per_request `{Platform}
  (e : Env) (r : Request) (s : Server) :
  calls (db (handle e r s).2) = calls (db s)
  \/ exists q,
       calls (db (handle e r s).2) = q :: calls (db s)
       /\ sentBy r q = true.
Proof.
  destruct r; cbn [handle]; try (left; reflexivity);
    unfold checkDbConnection;
    (destruct (negb (isDbConnected s) || negb (dbInitialized s));
       [left; reflexivity|]).
  - right. exists SelectAll. split; [|reflexivity].
    unfold listMenuItems, execute. now destruct (fault e).
  - unfold getMenuItem. destruct (Uuid_fromString id) as [u|]; [|now left].
    right. exists (SelectById u). split; [|reflexivity].
    unfold execute. destruct (fault e); [reflexivity|]. cbn.
    now destruct (table (db s) !! u).
  - unfold createMenuItem. destruct (missingRequired body); [now left|].
    right. eexists. split; [|shelve].
    unfold execute. destruct (fault e); [reflexivity|].
    destruct (runStmt _ _) as [[? ?]|]; reflexivity.
    Unshelve. reflexivity.
  - unfold updateMenuItem. destruct (Uuid_fromString id) as [u|]; [|now left].
    destruct (missingRequired body); [now left|].
    right. eexists. split; [|shelve].
    unfold execute. destruct (fault e); [reflexivity|].
    destruct (runStmt _ _) as [[? ?]|]; reflexivity.
    Unshelve. reflexivity.
  - unfold deleteMenuItem. destruct (Uuid_fromString id) as [u|]; [|now left].
    right. exists (Delete u). split; [|reflexivity].
    unfold execute. now destruct (fault e).
  - unfold searchMenuItems. destruct (searchTermOf q); [|now left].
    destruct (negb (nonEmpty s0)); [now left|].
    right. exists SelectAll. split; [|reflexivity].
    unfold execute. now destruct (fault e).
Qed.

(** * Further properties of the start-up task *)

Section LifecycleFacts.
Context `{Platform}.

(** Once the task has returned nothing resumes it, and requests keep
    the flags: a ready server stays ready. *)
Lemma ready_fire (ev : Event) (s s' : Server) :
  isReady s = true -> pc s = Returned -> fire ev s = Some s' ->
  isReady s' = true /\ pc s' = Returned
  /\ exists e r, ev = Http e r.
Proof.
  intros Hready Hpc Hfire. destruct ev as [o|e r]; cbn [fire] in Hfire.
  - rewrite Hpc in Hfire. now destruct o.
  - injection Hfire as <-. destruct (handle_frame e r s) as [d ->].
    repeat split; eauto.
Qed.

Lemma ready_run (evs : list Event) (s s' : Server) :
  isReady s = true -> pc s = Returned -> run evs s = Some s' ->
  isReady s' = true /\ pc s' = Returned /\ outcomes evs = [].
Proof.
  revert s. induction evs as [|ev evs IH]; intros s Hready Hpc Hrun.
  - injection Hrun as <-. now repeat split.
  - cbn [run] in Hrun. destruct (fire ev s) as [s1|] eqn:Hfire; [|discriminate].
    destruct (ready_fire ev s s1 Hready Hpc Hfire) as (Hr1 & Hp1 & e & r & ->).
    destruct (IH s1 Hr1 Hp1 Hrun) as (? & ? & Hout). repeat split; auto.
Qed.

(** Resuming the task never writes the table. *)
Lemma resume_table (o : Outcome) (s : Server) :
  table (db (resume o s)) = table (db s).
Proof. unfold resume. now destruct (pc s), o. Qed.

Lemma resume_calls (o : Outcome) (s : Server) :
  Forall (fun q => isProvisioning q = true) (calls (db s)) ->
  Forall (fun q => isProvisioning q = true) (calls (db (resume o s))).
Proof.
  intros Hall. unfold resume.
  destruct (pc s), o; cbn; try assumption; now constructor.
Qed.

(** Before the flags are set the table is the one the cluster held at
    start and every call so far is a provisioning call. *)
Lemma cold_run (t : gmap Uuid Columns) (evs : list Event) (s : Server) :
  run evs (start t) = Some s -> isReady s = false ->
  table (db s) = t
  /\ Forall (fun q => isProvisioning q = true) (calls (db s)).
Proof.
  revert s. induction evs as [|ev evs IH] using rev_ind; intros s Hrun Hcold.
  - injection Hrun as <-. split; [reflexivity|]. now repeat constructor.
  - rewrite run_snoc in Hrun.
    destruct (run evs (start t)) as [s1|] eqn:Hrun1; [|discriminate].
    assert (Hcold1 : isReady s1 = false).
    { destruct (isReady s1) eqn:Hready1; [|reflexivity].
      destruct (Inv_run t evs s1 Hrun1) as (_ & Htrue & _).
      apply isReady_true in Hready1 as Hflags. destruct Hflags as [Hc _].
      apply Htrue in Hc.
      destruct (ready_fire ev s1 s Hready1 Hc Hrun) as (Hready & _).
      congruence. }
    destruct (IH s1 eq_refl Hcold1) as [Ht Hcalls].
    destruct ev as [o|e r]; cbn [fire] in Hrun.
    + destruct (admissible o (pc s1)); [|discriminate].
      injection Hrun as <-. rewrite resume_table.
      split; [exact Ht | now apply resume_calls].
    + injection Hrun as <-. rewrite handle_cold by exact Hcold1. now split.
Qed.



End LifecycleFacts.

(** X11.  [/health] is served without the gate and never reports a
    mixed state: after any history of task steps and requests it
    answers 200 with either "Connected"/"Yes", exactly when the gate is
    open, or "Disconnected"/"No", and changes nothing. *)
Theorem health_reports_both_or_neither `{Platform}
  (t : gmap Uuid Columns) (evs : list Event) (e : Env) (s : Server) :
  run evs (start t) = Some s ->
  handle e GetHealth s
  = (Json 200 (if isReady s
               then PHealth "Connected" "Yes"
               else PHealth "Disconnected" "No"), s).
Proof.
  intros Hrun. destruct (Inv_run t evs s Hrun) as (Heq & _).
  cbn [handle]. unfold health, isReady. rewrite <- Heq.
  now destruct (isDbConnected s).
Qed.

Lemma health_reports_both_or_neither_witness :
  handle demoEnv GetHealth midAttempt
  = (Json 200 (if isReady midAttempt
               then PHealth "Connected" "Yes"
               else PHealth "Disconnected" "No"), midAttempt).
Proof.
  apply (health_reports_both_or_neither demoTable
           [Task Fulfilled; Task Fulfilled] demoEnv midAttempt).
  reflexivity.
Defined.

(** X12.  Readiness is never revoked: once the flags are set, whatever
    happens next (requests of any kind, storage calls that fail) the
    server stays ready, and the start-up task is never resumed: the
    server does not provision or reconnect again. *)
Theorem readiness_is_never_revoked `{Platform}
  (t : gmap Uuid Columns) (evs evs2 : list Event) (s s' : Server) :
  run evs (start t) = Some s -> isReady s = true ->
  run evs2 s = Some s' ->
  isReady s' = true /\ pc s' = Returned /\ outcomes evs2 = [].
Proof.
  intros Hrun Hready Hrun2.
  destruct (Inv_run t evs s Hrun) as (_ & Htrue & _).
  apply isReady_true in Hready as Hflags. destruct Hflags as [Hc _].
  apply Htrue in Hc. now apply (ready_run evs2 s s').
Qed.

Lemma readiness_is_never_revoked_witness :
  isReady (handle coldEnv GetMenuItems readyAfterStart).2 = true
  /\ pc (handle coldEnv GetMenuItems readyAfterStart).2 = Returned
  /\ outcomes [@Http refPlatform coldEnv GetMenuItems] = [].
Proof.
  apply (readiness_is_never_revoked demoTable successfulAttempt
           [Http coldEnv GetMenuItems] readyAfterStart
           (handle coldEnv GetMenuItems readyAfterStart).2);
    reflexivity.
Defined.

(** X13.  Nothing reaches the table before the server is ready: after
    any history of task steps and requests, as long as the gate is
    closed the table is the one the cluster held when the process
    started and every call sent so far is one of the five provisioning
    calls. *)
Theorem nothing_is_written_before_ready `{Platform}
  (t : gmap Uuid Columns) (evs : list Event) (s : Server) :
  run evs (start t) = Some s -> isReady s = false ->
  table (db s) = t
  /\ Forall (fun q => isProvisioning q = true) (calls (db s)).
Proof. apply cold_run. Qed.

Lemma nothing_is_written_before_ready_witness :
  table (db midAttempt) = demoTable
  /\ Forall (fun q => isProvisioning q = true) (calls (db midAttempt)).
Proof.
  apply (nothing_is_written_before_ready demoTable
           [Task Fulfilled; Http demoEnv (DeleteMenuItem soupId);
            Task Fulfilled] midAttempt);
    reflexivity.
Defined.



(** * How the operations compose *)



(** X16.  Deleting what was just created restores the table: on a
    ready server with a healthy storage, a valid create under an
    identifier not in use followed by a delete of that identifier
    leaves the table exactly as it was before the create. *)
Theorem create_then_delete_restores_the_table `{Platform}
  (e e2 : Env) (id : string) (b : Body) (nm ds ct : string) (s : Server) :
  isReady s = true -> validFields b nm ds ct ->
  fault e = None -> fault e2 = None ->
  Uuid_fromString id = Some (random e) ->
  table (db s) !! random e = None ->
  table (db (handle e2 (DeleteMenuItem id)
               (handle e (PostMenuItem b) s).2).2)
  = table (db s).
Proof.
  intros Hready Hvalid Hfault Hfault2 Hid Hfresh.
  rewrite (create_valid e b nm ds ct s) by assumption. cbn [snd].
  rewrite (delete_valid e2 id (random e)) by assumption.
  cbn [snd withDb db table]. now apply delete_insert_id.
Qed.

Lemma create_then_delete_restores_the_table_witness :
  table (db (handle laterEnv (DeleteMenuItem freeId)
               (handle demoEnv (PostMenuItem saladBody) demoServer).2).2)
  = table (db demoServer).
Proof.
  apply (create_then_delete_restores_the_table demoEnv laterEnv freeId
           saladBody "Salad" "Green salad" "Starter" demoServer);
    try reflexivity.
  repeat split; discriminate.
Defined.

(** X17.  Delete is idempotent: on a ready server with a healthy
    storage, deleting the same well-formed identifier a second time
    answers 200 again and leaves the table as the first delete left
    it. *)
Theorem delete_is_idempotent `{Platform}
  (e e2 : Env) (id : string) (uuid : Uuid) (s : Server) :
  isReady s = true -> Uuid_fromString id = Some uuid ->
  fault e = None -> fault e2 = None ->
  (handle e2 (DeleteMenuItem id) (handle e (DeleteMenuItem id) s).2).1
  = Json 200 (PMessage "Menu item deleted successfully")
  /\ table (db (handle e2 (DeleteMenuItem id)
                  (handle e (DeleteMenuItem id) s).2).2)
     = table (db (handle e (DeleteMenuItem id) s).2).
Proof.
  intros Hready Hid Hfault Hfault2.
  rewrite (delete_valid e id uuid s) by assumption. cbn [snd].
  rewrite (delete_valid e2 id uuid) by assumption.
  split; [reflexivity|]. cbn [snd withDb db table].
  apply delete_id, lookup_delete_eq.
Qed.

Lemma delete_is_idempotent_witness :
  (handle laterEnv (DeleteMenuItem soupId)
     (handle demoEnv (DeleteMenuItem soupId) demoServer).2).1
  = Json 200 (PMessage "Menu item deleted successfully")
  /\ table (db (handle laterEnv (DeleteMenuItem soupId)
                  (handle demoEnv (DeleteMenuItem soupId) demoServer).2).2)
     = table (db (handle demoEnv (DeleteMenuItem soupId) demoServer).2).
Proof.
  apply (delete_is_idempotent demoEnv laterEnv soupId 7%N demoServer);
    reflexivity.
Defined.

(** X18.  An update after a create keeps the time of creation: on a
    ready server with a healthy storage, after a valid create at one
    time and a valid update of the same identifier at another, the row
    holds the fields of the update, the [created_at] of the create and
    the [updated_at] of the update. *)
Theorem update_after_create_keeps_created_at `{Platform}
  (e e2 : Env) (id : string) (b b2 : Body) (nm ds ct nm2 ds2 ct2 : string)
  (s : Server) :
  isReady s = true ->
  validFields b nm ds ct -> validFields b2 nm2 ds2 ct2 ->
  fault e = None -> fault e2 = None ->
  Uuid_fromString id = Some (random e) ->
  table (db (handle e2 (PutMenuItem id b2)
               (handle e (PostMenuItem b) s).2).2) !! random e
  = Some {| name := Some nm2; description := Some ds2; category := Some ct2;
            price := Some (parseFloat (b_price b2));
            is_vegetarian := Some (isTrueFlag (b_is_vegetarian b2));
            created_at := Some (now e);
            updated_at := Some (now e2) |}.
Proof.
  intros Hready Hvalid Hvalid2 Hfault Hfault2 Hid.
  rewrite (create_valid e b nm ds ct s) by assumption. cbn [snd].
  rewrite (update_valid e2 id (random e) b2 nm2 ds2 ct2) by assumption.
  cbn [snd withDb db table]. rewrite !lookup_insert_eq. reflexivity.
Qed.

Lemma update_after_create_keeps_created_at_witness :
  table (db (handle laterEnv (PutMenuItem freeId saladBody)
               (handle demoEnv (PostMenuItem saladBody) demoServer).2).2)
    !! random demoEnv
  = Some {| name := Some "Salad"; description := Some "Green salad";
            category := Some "Starter";
            price := Some (parseFloat (b_price saladBody));
            is_vegetarian := Some (isTrueFlag (b_is_vegetarian saladBody));
            created_at := Some (now demoEnv);
            updated_at := Some (now laterEnv) |}.
Proof.
  apply (update_after_create_keeps_created_at demoEnv laterEnv freeId
           saladBody saladBody "Salad" "Green salad" "Starter"
           "Salad" "Green salad" "Starter" demoServer);
    try reflexivity; repeat split; discriminate.
Defined.



(** X20.  The last update wins: on a ready server with a healthy
    storage, two valid updates of the same identifier in a row leave
    the table exactly as the second one alone would have left it. *)
Theorem last_update_wins `{Platform}
  (e e2 : Env) (id : string) (uuid : Uuid) (b b2 : Body)
  (nm ds ct nm2 ds2 ct2 : string) (s : Server) :
  isReady s = true -> Uuid_fromString id = Some uuid ->
  validFields b nm ds ct -> validFields b2 nm2 ds2 ct2 ->
  fault e = None -> fault e2 = None ->
  table (db (handle e2 (PutMenuItem id b2)
               (handle e (PutMenuItem id b) s).2).2)
  = table (db (handle e2 (PutMenuItem id b2) s).2).
Proof.
  intros Hready Hid Hvalid Hvalid2 Hfault Hfault2.
  rewrite (update_valid e id uuid b nm ds ct s) by assumption. cbn [snd].
  rewrite !(update_valid e2 id uuid b2 nm2 ds2 ct2) by assumption.
  cbn [snd withDb db table].
  rewrite lookup_insert_eq, insert_insert_eq. reflexivity.
Qed.

Lemma last_update_wins_witness :
  table (db (handle laterEnv (PutMenuItem soupId saladBody)
               (handle demoEnv (PutMenuItem soupId saladBody) demoServer).2).2)
  = table (db (handle laterEnv (PutMenuItem soupId saladBody) demoServer).2).
Proof.
  apply (last_update_wins demoEnv laterEnv soupId 7%N saladBody saladBody
           "Salad" "Green salad" "Starter" "Salad" "Green salad" "Starter"
           demoServer);
    try reflexivity; repeat split; discriminate.
Defined.

(** * The bundled client *)

Section ClientFacts.
Context `{Platform}.

Lemma fetchMenuItems_bounds (r : FetchResult) (rc : Z) :
  (0 <= rc <= 5)%Z ->
  (0 <= (fetchMenuItems r rc).2 <= 5)%Z
  /\ forall ms, (fetchMenuItems r rc).1 = Some ms ->
       In ms [1000; 2000; 4000; 8000; 16000]%Z.
Proof.
  intros Hrc. destruct r; cbn [fetchMenuItems].
  - split; [cbn; lia | discriminate].
  - unfold MAX_RETRIES. destruct (rc <? 5)%Z eqn:Hlt; cbn [fst snd].
    + apply Z.ltb_lt in Hlt. split; [lia|]. intros ms [= <-].
      assert (Hcases : (rc = 0 \/ rc = 1 \/ rc = 2 \/ rc = 3 \/ rc = 4)%Z)
        by lia.
      destruct Hcases as [-> | [-> | [-> | [-> | ->]]]]; cbn; tauto.
    + split; [lia | discriminate].
Qed.

Lemma fetchRuns_bounds (rs : list FetchResult) (rc : Z) :
  (0 <= rc <= 5)%Z ->
  (0 <= (fetchRuns rs rc).2 <= 5)%Z
  /\ Forall (fun ms => In ms [1000; 2000; 4000; 8000; 16000]%Z)
       (fetchRuns rs rc).1.
Proof.
  revert rc. induction rs as [|r rs IH]; intros rc Hrc; cbn [fetchRuns].
  - split; [exact Hrc | constructor].
  - destruct (fetchMenuItems_bounds r rc Hrc) as [Hrc1 Hms].
    destruct (fetchMenuItems r rc) as [d rc1]. cbn [fst snd] in *.
    destruct (IH rc1 Hrc1) as [Hrc2 Hall].
    destruct (fetchRuns rs rc1) as [ds rc2]. cbn [fst snd] in *.
    split; [exact Hrc2|]. destruct d as [ms|]; [|exact Hall].
    constructor; [now apply Hms | exact Hall].
Qed.

Lemma fetchRuns_error (rs : list FetchResult) (rc : Z) :
  (rc < 5)%Z ->
  fetchRuns (FetchError :: rs) rc
  = (retryDelay rc :: (fetchRuns rs (rc + 1)).1, (fetchRuns rs (rc + 1)).2).
Proof.
  intros Hrc. cbn [fetchRuns fetchMenuItems]. unfold MAX_RETRIES.
  destruct (Z.ltb_spec rc 5); [|lia].
  now destruct (fetchRuns rs (rc + 1)).
Qed.

Lemma fetchRuns_exhausted (n : nat) :
  fetchRuns (replicate n FetchError) 5 = ([], 5%Z).
Proof. induction n as [|n IH]; cbn; [reflexivity | now rewrite IH]. Qed.



End ClientFacts.

(** X21.  The listing retry of the page is bounded: whatever sequence
    of successes and failures [fetchMenuItems] meets, starting from a
    counter of 0, the counter stays between 0 and [MAX_RETRIES] = 5 and
    every retry is scheduled after 1000, 2000, 4000, 8000 or 16000 ms;
    the 30000 ms cap of the delay formula is never reached. *)
Theorem client_retry_is_bounded (rs : list FetchResult) :
  (0 <= (fetchRuns rs 0).2 <= MAX_RETRIES)%Z
  /\ Forall (fun ms => In ms [1000; 2000; 4000; 8000; 16000]%Z
                       /\ (ms < 30000)%Z)
       (fetchRuns rs 0).1.
Proof.
  destruct (fetchRuns_bounds rs 0 ltac:(lia)) as [Hrc Hall].
  split; [exact Hrc|].
  eapply Forall_impl; [exact Hall|]. cbn. intros ms Hms.
  split; [exact Hms|]. intuition lia.
Qed.

(** X22.  The page gives up after five retries: [n] failures of
    [fetchMenuItems] in a row, starting from a counter of 0, schedule
    the first [n] of the delays 1000, 2000, 4000, 8000, 16000 ms and no
    more than those five, however large [n] is; the counter ends at
    [min n 5]. *)
Theorem client_gives_up_after_five_retries (n : nat) :
  fetchRuns (replicate n FetchError) 0
  = (take n [1000; 2000; 4000; 8000; 16000]%Z, Z.min (Z.of_nat n) 5).
Proof.
  destruct n as [|[|[|[|[|n]]]]]; try reflexivity.
  replace (Z.min (Z.of_nat (S (S (S (S (S n)))))) 5) with 5%Z by lia.
  cbn [replicate]. rewrite !fetchRuns_error by lia.
  change (0 + 1 + 1 + 1 + 1 + 1)%Z with 5%Z.
  rewrite fetchRuns_exhausted. cbn [take fst snd]. rewrite take_nil.
  reflexivity.
Qed.





(** X25.  What the form of the page submits is stored as entered: on a
    ready server with a healthy storage, a new item submitted with
    non-empty name, description and category is answered 201 and its
    row holds those three texts, the state of the vegetarian checkbox,
    which travels as the text "true" or "false", and the time of the
    create in both time columns; a form with an empty name, description
    or category is answered 400 and nothing is stored. *)
Theorem client_form_is_stored_as_entered `{Platform}
  (e : Env) (menuId nm ds ct pr : string) (checked : bool) (s : Server) :
  isReady s = true -> fault e = None ->
  (nm <> "" -> ds <> "" -> ct <> "" ->
   (handle e (submitForm false menuId nm ds ct pr checked) s).1
   = Json 201 (PCreated (random e) "Menu item created successfully")
   /\ exists row,
        table (db (handle e (submitForm false menuId nm ds ct pr checked)
                     s).2) !! random e = Some row
        /\ name row = Some nm /\ description row = Some ds
        /\ category row = Some ct /\ is_vegetarian row = Some checked
        /\ created_at row = Some (now e) /\ updated_at row = Some (now e))
  /\ (nm = "" \/ ds = "" \/ ct = "" ->
      handle e (submitForm false menuId nm ds ct pr checked) s
      = (Json 400 (PError "Missing required fields" None), s)).
Proof.
  intros Hready Hfault. cbn [submitForm]. split.
  - intros Hnm Hds Hct.
    rewrite (create_valid e (formData nm ds ct pr checked) nm ds ct s);
      [|assumption|repeat split; try assumption; discriminate|assumption].
    split; [reflexivity|]. cbn [snd withDb db table].
    eexists. split; [apply lookup_insert_eq|].
    unfold createdColumns. cbn. now destruct checked.
  - intros Hempty. cbn [handle]. rewrite gate_open by exact Hready.
    unfold createMenuItem, missingRequired. cbn.
    destruct Hempty as [-> | [-> | ->]]; cbn; rewrite ?orb_true_r;
      reflexivity.
Qed.

Lemma client_form_is_stored_as_entered_witness :
  ("Salad" <> "" -> "Green salad" <> "" -> "Starter" <> "" ->
   (handle demoEnv
      (submitForm false "" "Salad" "Green salad" "Starter" "0" true)
      demoServer).1
   = Json 201 (PCreated (random demoEnv) "Menu item created successfully")
   /\ exists row,
        table (db (handle demoEnv
                     (submitForm false "" "Salad" "Green salad" "Starter"
                        "0" true) demoServer).2) !! random demoEnv
        = Some row
        /\ name row = Some "Salad" /\ description row = Some "Green salad"
        /\ category row = Some "Starter" /\ is_vegetarian row = Some true
        /\ created_at row = Some (now demoEnv)
        /\ updated_at row = Some (now demoEnv))
  /\ ("Salad" = "" \/ "Green salad" = "" \/ "Starter" = "" ->
      handle demoEnv
        (submitForm false "" "Salad" "Green salad" "Starter" "0" true)
        demoServer
      = (Json 400 (PError "Missing required fields" None), demoServer)).
Proof.
  apply (client_form_is_stored_as_entered demoEnv "" "Salad" "Green salad"
           "Starter" "0" true demoServer);
    reflexivity.
Defined.
